(** * pyatv.conf: device configurations and their services

    A shallow embedding of [pyatv/conf.py] and a verification of the
    resolution policy of [AppleTV]: readiness, identifier priority,
    main-service selection, service registration and merging, credential
    assignment and the aggregation of device information.

    Python objects that are mutated in place and reached through references
    (the service records) live in a store indexed by locations; a
    configuration holds locations, not copies. *)

From Stdlib Require Import ZArith Ascii String.
From stdpp Require Import base decidable option list strings gmap functions.

Local Open Scope string_scope.
Local Open Scope list_scope.

(** ** Python values used by the module *)

(** Modelled from the spec: the enumerations [pyatv.const.Protocol] and
    [pyatv.const.OperatingSystem], which the module imports. *)
Inductive Protocol := DMAP | MRP | AirPlay.

Inductive OperatingSystem := Unknown | Legacy | TvOS.

#[global] Instance Protocol_eq_dec : EqDecision Protocol.
Proof. solve_decision. Defined.

#[global] Instance OperatingSystem_eq_dec : EqDecision OperatingSystem.
Proof. solve_decision. Defined.

(** Modelled from the spec: the exceptions raised, NoServiceError of
    [pyatv.exceptions] by [main_service] and InvariantError by a merge of
    records of different protocols. *)
Inductive Exception :=
| NoServiceError (msg : string)
| InvariantError.

(** The outcome of a call that may raise. *)
Inductive Result (A : Type) :=
| Return (a : A)
| Raise (e : Exception).

Arguments Return {A} a.
Arguments Raise {A} e.

(** Truth value of an [Optional[str]]: [None] and the empty string are false. *)
Definition str_truthy (o : option string) : bool :=
  match o with
  | Some EmptyString => false
  | Some _ => true
  | None => false
  end.

(** Python's [a or b] on [Optional[str]] operands. *)
Definition str_or (a b : option string) : option string :=
  if str_truthy a then a else b.

(** Upper case of ASCII text: the letters [a]-[z] are mapped to [A]-[Z]
    and every other character is kept. On strings of ASCII characters this
    is what Python's [str.upper] computes; the examples below, whose MAC
    addresses and device ids are ASCII, are run with it. [device_info]
    itself takes [str.upper] as a parameter. *)
Definition upper_ascii (c : ascii) : ascii :=
  let n := nat_of_ascii c in
  if ((97 <=? n)%nat && (n <=? 122)%nat)%bool then ascii_of_nat (n - 32) else c.

Fixpoint upper (s : string) : string :=
  match s with
  | EmptyString => EmptyString
  | String c s' => String (upper_ascii c) (upper s')
  end.

(** ** Python dictionaries in insertion order

    [AppleTV._services] is iterated by [services] and [_all_properties], so
    the order of insertion is part of its value. *)
Section PyDict.

Context {K V : Type} `{EqDecision K}.

(** [d.get(k)] *)
Fixpoint dict_get (d : list (K * V)) (k : K) : option V :=
  match d with
  | [] => None
  | (k', v) :: d' => if decide (k = k') then Some v else dict_get d' k
  end.

(** [k in d] *)
Fixpoint dict_contains (d : list (K * V)) (k : K) : bool :=
  match d with
  | [] => false
  | (k', _) :: d' => if decide (k = k') then true else dict_contains d' k
  end.

(** [d[k] = v]: an existing key keeps its position, a new key goes last. *)
Fixpoint dict_setitem (d : list (K * V)) (k : K) (v : V) : list (K * V) :=
  match d with
  | [] => [(k, v)]
  | (k', v') :: d' =>
      if decide (k = k') then (k', v) :: d' else (k', v') :: dict_setitem d' k v
  end.

(** [list(d.values())] *)
Definition dict_values (d : list (K * V)) : list V := d.*2.

End PyDict.

(** [self.update(other)] on a property bag: the keys of [other] are added
    and, where a key is in both, the value of [other] is kept. *)
Definition dict_update (self other : gmap string string) : gmap string string :=
  other ∪ self.

(** ** Service records *)

(** Object identity: a location of the store of service records. *)
Definition loc := nat.

Module BaseService.

(** Modelled from the spec: the class [pyatv.interface.BaseService], of
    which this module has only the subclasses. A record holds an optional
    identifier, a protocol tag, a port, a property bag and optional
    credentials. *)
Record t := mk {
  identifier : option string;
  protocol : Protocol;
  port : Z;
  properties : gmap string string;
  credentials : option string
}.

(** Modelled from the spec: [BaseService.__init__(identifier, protocol,
    port, properties)], which leaves the credentials unset and takes an
    empty bag when no properties are given. *)
Definition __init__ (identifier : option string) (protocol : Protocol)
    (port : Z) (properties : option (gmap string string)) : t :=
  mk identifier protocol port (default ∅ properties) None.

(** [s.credentials = c] and [s.properties = p] on a record value. *)
Definition with_credentials (s : t) (c : option string) : t :=
  mk (identifier s) (protocol s) (port s) (properties s) c.

Definition with_properties (s : t) (p : gmap string string) : t :=
  mk (identifier s) (protocol s) (port s) p (credentials s).

(** The store of service records. Every reference a Python program holds
    denotes an object, so the store is total. *)
Abbreviation Heap := (loc → t).

(** Modelled from the spec: [BaseService.merge(other)], absent from this
    module. It requires both records to be of one protocol and fails with
    an InvariantError otherwise; the incoming properties are layered over
    the existing ones (new keys added, existing keys overwritten by the
    incoming values) and incoming non-empty credentials replace the
    existing ones. The object at [self] is updated in place, and [other] is
    read from the store as it is when each statement runs. *)
Definition merge (h : Heap) (self other : loc) : Result Heap :=
  if decide (protocol (h other) = protocol (h self)) then
    let h1 : Heap :=
      <[self := with_properties (h self)
                  (dict_update (properties (h self)) (properties (h other)))]> h in
    let h2 : Heap :=
      <[self := with_credentials (h1 self)
                  (str_or (credentials (h1 other)) (credentials (h1 self)))]> h1 in
    Return h2
  else Raise InvariantError.

End BaseService.

Abbreviation Heap := (loc → BaseService.t).

(** [port or 3689] *)
Definition port_or (port : option Z) (d : Z) : Z :=
  match port with
  | Some p => if decide (p = 0%Z) then d else p
  | None => d
  end.

(** The three subclasses: each builds the base record with its protocol tag
    and then assigns the credentials. A caller that leaves out the port of
    an AirPlay service passes 7000. *)
Definition DmapService (identifier credentials : option string)
    (port : option Z) (properties : option (gmap string string)) : BaseService.t :=
  BaseService.with_credentials
    (BaseService.__init__ identifier DMAP (port_or port 3689) properties)
    credentials.

Definition MrpService (identifier : option string) (port : Z)
    (credentials : option string) (properties : option (gmap string string))
    : BaseService.t :=
  BaseService.with_credentials
    (BaseService.__init__ identifier MRP port properties) credentials.

Definition AirPlayService (identifier : option string) (port : Z)
    (credentials : option string) (properties : option (gmap string string))
    : BaseService.t :=
  BaseService.with_credentials
    (BaseService.__init__ identifier AirPlay port properties) credentials.

(** ** Device information *)

(** Modelled from the spec: the value object [pyatv.interface.DeviceInfo],
    built from the operating system, version, build, model and MAC
    address. *)
Record DeviceInfo := mkDeviceInfo {
  os_type : OperatingSystem;
  version : option string;
  build : option string;
  model : option string;
  mac : option string
}.

(** ** Configurations *)

(** [ipaddress.IPv4Address], as the 32-bit number of the address. *)
Definition IPv4Address := N.

Module AppleTV.

Record t := mk {
  address : IPv4Address;
  name : string;
  _services : list (Protocol * loc)
}.

Definition __init__ (address : IPv4Address) (name : string) : t :=
  mk address name [].

Definition ready (self : t) : bool :=
  let has_dmap := dict_contains (_services self) DMAP in
  let has_mrp := dict_contains (_services self) MRP in
  has_dmap || has_mrp.

(** The loop of [identifier]. A service object is always true, so
    [if service] tests that the lookup found one. *)
Fixpoint identifier_loop (h : Heap) (self : t) (prots : list Protocol)
    : option string :=
  match prots with
  | [] => None
  | prot :: prots' =>
      match dict_get (_services self) prot with
      | Some service => BaseService.identifier (h service)
      | None => identifier_loop h self prots'
      end
  end.

Definition identifier (h : Heap) (self : t) : option string :=
  identifier_loop h self [MRP; DMAP; AirPlay].

Definition get_service (self : t) (protocol : Protocol) : option loc :=
  dict_get (_services self) protocol.

Definition services (self : t) : list loc :=
  dict_values (_services self).

Definition all_identifiers (h : Heap) (self : t) : list string :=
  omap (λ x, BaseService.identifier (h x)) (services self).

(** [add_service] returns nothing; the result is the store and the
    configuration after the call. *)
Definition add_service (h : Heap) (self : t) (service : loc)
    : Result (Heap * t) :=
  let existing := dict_get (_services self) (BaseService.protocol (h service)) in
  match existing with
  | Some existing =>
      match BaseService.merge h existing service with
      | Return h' => Return (h', self)
      | Raise e => Raise e
      end
  | None =>
      Return (h, mk (address self) (name self)
                   (dict_setitem (_services self)
                      (BaseService.protocol (h service)) service))
  end.

(** The loop of [main_service]. *)
Fixpoint main_service_loop (self : t) (protocols : list Protocol)
    : Result loc :=
  match protocols with
  | [] => Raise (NoServiceError "no service to connect to")
  | prot :: protocols' =>
      match dict_get (_services self) prot with
      | Some service => Return service
      | None => main_service_loop self protocols'
      end
  end.

Definition main_service (self : t) (protocol : option Protocol) : Result loc :=
  let protocols :=
    match protocol with
    | Some protocol => [protocol]
    | None => [MRP; DMAP]
    end in
  main_service_loop self protocols.

(** [set_credentials] returns its boolean next to the store and the
    configuration after the call. *)
Definition set_credentials (h : Heap) (self : t) (protocol : Protocol)
    (credentials : option string) : bool * (Heap * t) :=
  match get_service self protocol with
  | Some service =>
      (true, (<[service := BaseService.with_credentials (h service) credentials]> h,
              self))
  | None => (false, (h, self))
  end.

(** [properties.update(service.properties)] for each service in turn. *)
Definition _all_properties (h : Heap) (self : t) : gmap string string :=
  foldl (λ properties service,
           dict_update properties (BaseService.properties (h service)))
        ∅ (services self).

Section DeviceInfo.

(** The lookup tables of [pyatv.support.device_info] are not part of this
    module. *)
Variable lookup_model : option string → option string.
Variable lookup_version : option string → option string.

(** [str.upper] is a built-in of Python that follows the case tables of
    Unicode; it is a parameter as well. *)
Variable str_upper : string → string.

Definition device_info (h : Heap) (self : t) : DeviceInfo :=
  let properties := _all_properties h self in
  let os_type :=
    if dict_contains (_services self) MRP then TvOS
    else if dict_contains (_services self) DMAP then Legacy
    else Unknown in
  let build := properties !! "SystemBuildVersion" in
  let model := properties !! "model" in
  let version :=
    match properties !! "osvers" with
    | Some v => Some v
    | None => lookup_version build
    end in
  let mac :=
    match properties !! "macAddress" with
    | Some v => Some v
    | None => properties !! "deviceid"
    end in
  let mac := if str_truthy mac then str_upper <$> mac else mac in
  mkDeviceInfo os_type version build (lookup_model model) mac.

End DeviceInfo.

(** [__str__] formats the values above and is left out. *)

(** A Python value compared with a configuration: another configuration or
    an object of some other class. *)
Inductive PyObject :=
| ObjAppleTV (c : t)
| ObjOther.

(** [isinstance(other, self.__class__)] selects the first case. *)
Definition __eq__ (h : Heap) (self : t) (other : PyObject) : bool :=
  match other with
  | ObjAppleTV other =>
      bool_decide (identifier h self = identifier h other)
  | ObjOther => false
  end.

End AppleTV.

(** ** The class invariant

    [_services] is a dictionary, so no protocol occurs twice as a key, and
    a record is stored under its own protocol tag. *)
Definition class_inv (h : Heap) (self : AppleTV.t) : Prop :=
  NoDup (AppleTV._services self).*1
  ∧ Forall (λ e, BaseService.protocol (h e.2) = e.1) (AppleTV._services self).

#[global] Instance class_inv_dec (h : Heap) (self : AppleTV.t) :
  Decision (class_inv h self).
Proof. unfold class_inv. apply _. Defined.

(** A protocol is registered when it is a key of [_services]. *)
Definition registered (self : AppleTV.t) (p : Protocol) : Prop :=
  p ∈ (AppleTV._services self).*1.

(** ** Example stores and configurations *)

Definition living_room : AppleTV.t := AppleTV.__init__ 3232235786%N "Living Room".

(** A store with an MRP, a DMAP and an AirPlay record, a second MRP record
    as a later scan would report it, and MRP records without properties
    elsewhere. *)
Definition store_scan : Heap := λ l,
  match l with
  | 0 => MrpService (Some "ABC") 49152 None
           (Some {[ "SystemBuildVersion" := "18J386" ]})
  | 1 => DmapService (Some "XYZ") None None None
  | 2 => AirPlayService (Some "AP") 7000 None
           (Some {[ "macAddress" := "aa:bb:cc" ]})
  | 3 => MrpService (Some "ABC") 49152 (Some "c0ffee")
           (Some {[ "SystemBuildVersion" := "18K561"; "model" := "J105aAP" ]})
  | 4 => MrpService (Some "ABC") 49152 None (Some {[ "osvers" := "14.7" ]})
  | _ => MrpService (Some "ABC") 49152 None None
  end.

Definition conf_all : AppleTV.t :=
  AppleTV.mk 3232235786%N "Living Room" [(MRP, 0); (DMAP, 1); (AirPlay, 2)].

Definition conf_mrp : AppleTV.t :=
  AppleTV.mk 3232235786%N "Living Room" [(MRP, 0)].

Definition conf_dmap : AppleTV.t :=
  AppleTV.mk 3232235786%N "Living Room" [(DMAP, 1)].

Definition conf_airplay : AppleTV.t :=
  AppleTV.mk 3232235787%N "Kitchen" [(AirPlay, 2)].

(** A store whose MRP record has no identifier. *)
Definition store_anonymous_mrp : Heap := λ l,
  match l with
  | 0 => MrpService None 49152 None None
  | _ => DmapService (Some "XYZ") None None None
  end.

Definition conf_anonymous_mrp : AppleTV.t :=
  AppleTV.mk 3232235786%N "Living Room" [(MRP, 0); (DMAP, 1)].

(** A small table for the two lookups of [pyatv.support.device_info]. *)
Definition table_model (m : option string) : option string :=
  match m with
  | Some "J105aAP" => Some "Apple TV 4K"
  | _ => None
  end.

Definition table_version (b : option string) : option string :=
  match b with
  | Some "18J386" => Some "14.7"
  | _ => None
  end.

(** ** Facts about dictionaries *)
Section PyDictFacts.

Context {K V : Type} `{EqDecision K}.
Implicit Types (d : list (K * V)) (k : K) (v : V).

Lemma dict_contains_is_Some d k :
  dict_contains d k = true ↔ is_Some (dict_get d k).
Proof.
  induction d as [|[k' v'] d IH]; simpl.
  - split; [discriminate | intros [? ?]; discriminate].
  - destruct (decide (k = k')); [|exact IH].
    split; eauto.
Qed.

Lemma dict_contains_None d k :
  dict_contains d k = false ↔ dict_get d k = None.
Proof.
  rewrite <- not_true_iff_false, dict_contains_is_Some.
  rewrite <- eq_None_not_Some. reflexivity.
Qed.

Lemma dict_get_elem_of d k v : dict_get d k = Some v → (k, v) ∈ d.
Proof.
  induction d as [|[k' v'] d IH]; simpl; [discriminate|].
  destruct (decide (k = k')) as [->|Hne].
  - intros [= ->]. apply list_elem_of_here.
  - intros Hget. apply list_elem_of_further, IH, Hget.
Qed.

Lemma dict_get_None_keys d k : dict_get d k = None ↔ k ∉ d.*1.
Proof.
  induction d as [|[k' v'] d IH]; simpl.
  - split; [intros _; apply not_elem_of_nil | reflexivity].
  - rewrite not_elem_of_cons. destruct (decide (k = k')) as [->|Hne].
    + split; [discriminate | intros [Hk _]; contradiction].
    + rewrite IH. tauto.
Qed.

Lemma elem_of_dict_get d k v : NoDup d.*1 → (k, v) ∈ d → dict_get d k = Some v.
Proof.
  induction d as [|[k' v'] d IH]; simpl; intros Hnd Hin.
  - apply elem_of_nil in Hin. contradiction.
  - apply list.NoDup_cons in Hnd as [Hk' Hnd].
    apply elem_of_cons in Hin as [[= -> ->]|Hin].
    + rewrite decide_True; reflexivity.
    + destruct (decide (k = k')) as [->|Hne]; [|auto].
      exfalso. apply Hk'. change k' with ((k', v).1).
      apply list_elem_of_fmap_2, Hin.
Qed.

Lemma dict_get_setitem_eq d k v : dict_get (dict_setitem d k v) k = Some v.
Proof.
  induction d as [|[k' v'] d IH]; simpl.
  - rewrite decide_True; reflexivity.
  - destruct (decide (k = k')) as [->|Hne]; simpl.
    + rewrite decide_True; reflexivity.
    + rewrite decide_False; assumption.
Qed.

Lemma dict_get_setitem_ne d k k' v :
  k ≠ k' → dict_get (dict_setitem d k v) k' = dict_get d k'.
Proof.
  intros Hne. induction d as [|[k0 v0] d IH]; simpl.
  - rewrite decide_False; [reflexivity | congruence].
  - destruct (decide (k = k0)) as [->|Hne0]; simpl.
    + rewrite !decide_False by congruence. reflexivity.
    + rewrite IH. reflexivity.
Qed.

Lemma dict_setitem_new d k v :
  dict_get d k = None → dict_setitem d k v = d ++ [(k, v)].
Proof.
  induction d as [|[k' v'] d IH]; simpl; [reflexivity|].
  destruct (decide (k = k')); [discriminate|].
  intros Hget. rewrite IH; [reflexivity | assumption].
Qed.

End PyDictFacts.

(** ** The example configurations *)

(** [conf_all] is what three registrations make of a new configuration. *)
Example conf_all_built :
  (match AppleTV.add_service store_scan living_room 0 with
   | Return (h1, c1) =>
       match AppleTV.add_service h1 c1 1 with
       | Return (h2, c2) => AppleTV.add_service h2 c2 2
       | Raise e => Raise e
       end
   | Raise e => Raise e
   end) = Return (store_scan, conf_all).
Proof. reflexivity. Qed.

(** An MRP record with identifier and build next to a DMAP record: the
    configuration is ready, resolves to the MRP identifier, connects
    through the MRP record and reports TvOS. *)
Example conf_mrp_and_dmap :
  let c := AppleTV.mk 3232235786%N "Living Room" [(MRP, 0); (DMAP, 1)] in
  AppleTV.ready c = true
  ∧ AppleTV.identifier store_scan c = Some "ABC"
  ∧ AppleTV.main_service c None = Return 0
  ∧ AppleTV.device_info table_model table_version upper store_scan c
    = mkDeviceInfo TvOS (Some "14.7") (Some "18J386") None None
  ∧ AppleTV.all_identifiers store_scan c = ["ABC"; "XYZ"].
Proof. repeat split; vm_compute; reflexivity. Qed.

(** ** Lookup, registration and readiness *)

Lemma registered_get_service (self : AppleTV.t) (p : Protocol) :
  registered self p ↔ is_Some (AppleTV.get_service self p).
Proof.
  unfold registered, AppleTV.get_service.
  rewrite <- not_eq_None_Some, dict_get_None_keys.
  split; [auto | apply dec_stable].
Qed.

Lemma contains_registered (self : AppleTV.t) (p : Protocol) :
  dict_contains (AppleTV._services self) p = true ↔ registered self p.
Proof. rewrite registered_get_service. apply dict_contains_is_Some. Qed.

Lemma contains_not_registered (self : AppleTV.t) (p : Protocol) :
  dict_contains (AppleTV._services self) p = false ↔ ¬ registered self p.
Proof. rewrite <- contains_registered. symmetry. apply not_true_iff_false. Qed.

(** C4. [ready] is true exactly when a DMAP or an MRP service is registered,
    which is when [get_service] finds one of the two; it is false for a
    configuration without services and for one whose only service is
    AirPlay. *)
Theorem ready_iff_dmap_or_mrp (self : AppleTV.t) :
  (AppleTV.ready self = true ↔ registered self DMAP ∨ registered self MRP)
  ∧ (AppleTV.ready self = true ↔
       is_Some (AppleTV.get_service self MRP)
       ∨ is_Some (AppleTV.get_service self DMAP))
  ∧ (AppleTV._services self = [] → AppleTV.ready self = false)
  ∧ ((∀ p, registered self p → p = AirPlay) → AppleTV.ready self = false).
Proof.
  assert (Hready : AppleTV.ready self = true
                   ↔ registered self DMAP ∨ registered self MRP).
  { unfold AppleTV.ready. rewrite orb_true_iff, !contains_registered.
    reflexivity. }
  split; [exact Hready|].
  split; [rewrite Hready, !registered_get_service; tauto|].
  split.
  - intros Hnil. unfold AppleTV.ready. rewrite Hnil. reflexivity.
  - intros Honly. apply not_true_iff_false. rewrite Hready.
    intros [H|H]; apply Honly in H; discriminate.
Qed.

Lemma ready_iff_dmap_or_mrp_witness :
  AppleTV.ready living_room = false ∧ AppleTV.ready conf_airplay = false.
Proof.
  split.
  - apply (proj1 (proj2 (proj2 (ready_iff_dmap_or_mrp living_room)))).
    reflexivity.
  - apply (proj2 (proj2 (proj2 (ready_iff_dmap_or_mrp conf_airplay)))).
    intros p Hp. apply contains_registered in Hp.
    destruct p; [discriminate Hp | discriminate Hp | reflexivity].
Defined.

(** ** Selection of the main service *)

Lemma main_service_loop_found (self : AppleTV.t) (prot : Protocol)
    (rest : list Protocol) (s : loc) :
  AppleTV.get_service self prot = Some s →
  AppleTV.main_service_loop self (prot :: rest) = Return s.
Proof.
  unfold AppleTV.get_service. intros Hget. simpl. rewrite Hget. reflexivity.
Qed.

Lemma main_service_loop_skip (self : AppleTV.t) (prot : Protocol)
    (rest : list Protocol) :
  AppleTV.get_service self prot = None →
  AppleTV.main_service_loop self (prot :: rest)
  = AppleTV.main_service_loop self rest.
Proof.
  unfold AppleTV.get_service. intros Hget. simpl. rewrite Hget. reflexivity.
Qed.

(** C3. Without a protocol argument [main_service] returns the MRP service
    when one is registered, else the DMAP service when one is registered,
    and raises NoServiceError when neither is, whatever else is registered:
    a returned service is the MRP or the DMAP one. With a protocol argument
    only that protocol is looked up, and its absence raises
    NoServiceError. *)
Theorem main_service_priority (self : AppleTV.t) :
  (∀ s, AppleTV.get_service self MRP = Some s →
        AppleTV.main_service self None = Return s)
  ∧ (∀ s, AppleTV.get_service self MRP = None →
          AppleTV.get_service self DMAP = Some s →
          AppleTV.main_service self None = Return s)
  ∧ (AppleTV.get_service self MRP = None →
     AppleTV.get_service self DMAP = None →
     AppleTV.main_service self None
     = Raise (NoServiceError "no service to connect to"))
  ∧ (∀ s, AppleTV.main_service self None = Return s →
          AppleTV.get_service self MRP = Some s
          ∨ AppleTV.get_service self DMAP = Some s)
  ∧ (∀ p s, AppleTV.get_service self p = Some s →
            AppleTV.main_service self (Some p) = Return s)
  ∧ (∀ p, AppleTV.get_service self p = None →
          AppleTV.main_service self (Some p)
          = Raise (NoServiceError "no service to connect to")).
Proof.
  unfold AppleTV.main_service.
  repeat split.
  - intros s Hmrp. apply main_service_loop_found, Hmrp.
  - intros s Hmrp Hdmap. rewrite main_service_loop_skip by exact Hmrp.
    apply main_service_loop_found, Hdmap.
  - intros Hmrp Hdmap. rewrite !main_service_loop_skip by assumption.
    reflexivity.
  - intros s.
    destruct (AppleTV.get_service self MRP) as [m|] eqn:Hmrp.
    + rewrite (main_service_loop_found _ _ _ m Hmrp). intros [= ->]. auto.
    + rewrite main_service_loop_skip by exact Hmrp.
      destruct (AppleTV.get_service self DMAP) as [d|] eqn:Hdmap.
      * rewrite (main_service_loop_found _ _ _ d Hdmap). intros [= ->]. auto.
      * rewrite main_service_loop_skip by exact Hdmap. discriminate.
  - intros p s Hp. apply main_service_loop_found, Hp.
  - intros p Hp. rewrite main_service_loop_skip by exact Hp. reflexivity.
Qed.

Lemma main_service_priority_witness :
  AppleTV.main_service conf_all None = Return 0
  ∧ AppleTV.main_service conf_dmap None = Return 1
  ∧ AppleTV.main_service conf_airplay None
    = Raise (NoServiceError "no service to connect to")
  ∧ AppleTV.main_service conf_airplay (Some AirPlay) = Return 2
  ∧ AppleTV.main_service conf_mrp (Some DMAP)
    = Raise (NoServiceError "no service to connect to").
Proof.
  split; [|split; [|split; [|split]]].
  - apply (proj1 (main_service_priority conf_all)). reflexivity.
  - apply (proj1 (proj2 (main_service_priority conf_dmap))); reflexivity.
  - apply (proj1 (proj2 (proj2 (main_service_priority conf_airplay))));
      reflexivity.
  - apply (proj1 (proj2 (proj2 (proj2 (proj2
             (main_service_priority conf_airplay)))))).
    reflexivity.
  - apply (proj2 (proj2 (proj2 (proj2 (proj2
             (main_service_priority conf_mrp)))))).
    reflexivity.
Defined.

(** ** Identifier resolution and equality *)

(** C1. [identifier] is the identifier of the first registered service in
    the order MRP, DMAP, AirPlay, null when that service has no identifier,
    and it is absent when none of the three is registered. The fall back to
    DMAP and then to AirPlay happens when the earlier protocols are not
    registered. *)
Theorem identifier_first_registered (h : Heap) (self : AppleTV.t) :
  (∀ s, AppleTV.get_service self MRP = Some s →
        AppleTV.identifier h self = BaseService.identifier (h s))
  ∧ (∀ s, AppleTV.get_service self MRP = None →
          AppleTV.get_service self DMAP = Some s →
          AppleTV.identifier h self = BaseService.identifier (h s))
  ∧ (∀ s, AppleTV.get_service self MRP = None →
          AppleTV.get_service self DMAP = None →
          AppleTV.get_service self AirPlay = Some s →
          AppleTV.identifier h self = BaseService.identifier (h s))
  ∧ (AppleTV.get_service self MRP = None →
     AppleTV.get_service self DMAP = None →
     AppleTV.get_service self AirPlay = None →
     AppleTV.identifier h self = None).
Proof.
  unfold AppleTV.identifier, AppleTV.get_service. simpl.
  repeat split.
  - intros s ->. reflexivity.
  - intros s -> ->. reflexivity.
  - intros s -> -> ->. reflexivity.
  - intros -> -> ->. reflexivity.
Qed.

Lemma identifier_first_registered_witness :
  AppleTV.identifier store_scan conf_all = Some "ABC"
  ∧ AppleTV.identifier store_scan conf_dmap = Some "XYZ"
  ∧ AppleTV.identifier store_scan conf_airplay = Some "AP"
  ∧ AppleTV.identifier store_scan living_room = None.
Proof.
  split; [|split; [|split]].
  - apply (proj1 (identifier_first_registered store_scan conf_all) 0).
    reflexivity.
  - apply (proj1 (proj2 (identifier_first_registered store_scan conf_dmap)) 1);
      reflexivity.
  - apply (proj1 (proj2 (proj2
             (identifier_first_registered store_scan conf_airplay))) 2);
      reflexivity.
  - apply (proj2 (proj2 (proj2
             (identifier_first_registered store_scan living_room))));
      reflexivity.
Defined.

(** An MRP record without identifier hides the identifier of the DMAP
    record: the result is absent although a registered service has an
    identifier, and it is not the DMAP identifier. *)
Lemma identifier_null_mrp_hides_dmap :
  AppleTV.get_service conf_anonymous_mrp MRP = Some 0
  ∧ BaseService.identifier (store_anonymous_mrp 0) = None
  ∧ AppleTV.get_service conf_anonymous_mrp DMAP = Some 1
  ∧ BaseService.identifier (store_anonymous_mrp 1) = Some "XYZ"
  ∧ AppleTV.identifier store_anonymous_mrp conf_anonymous_mrp = None
  ∧ AppleTV.identifier store_anonymous_mrp conf_anonymous_mrp
    ≠ BaseService.identifier (store_anonymous_mrp 1).
Proof. repeat split. discriminate. Qed.

(** C2. Two configurations compare equal exactly when their resolved
    identifiers are equal, two absent identifiers included; the addresses
    and the names play no role, and the services only through the
    identifier they resolve to. An object of another class is never
    equal. *)
Theorem eq_iff_identifier (h : Heap) (c1 c2 : AppleTV.t) :
  (AppleTV.__eq__ h c1 (AppleTV.ObjAppleTV c2) = true
   ↔ AppleTV.identifier h c1 = AppleTV.identifier h c2)
  ∧ (∀ a1 n1 a2 n2,
       AppleTV.__eq__ h (AppleTV.mk a1 n1 (AppleTV._services c1))
         (AppleTV.ObjAppleTV (AppleTV.mk a2 n2 (AppleTV._services c2)))
       = AppleTV.__eq__ h c1 (AppleTV.ObjAppleTV c2))
  ∧ AppleTV.__eq__ h c1 AppleTV.ObjOther = false.
Proof.
  split; [|split].
  - unfold AppleTV.__eq__. apply bool_decide_eq_true.
  - intros a1 n1 a2 n2. reflexivity.
  - reflexivity.
Qed.

(** Two configurations without services, of different addresses and names:
    both identifiers are absent and the two compare equal. *)
Lemma eq_absent_identifiers :
  AppleTV.identifier store_scan (AppleTV.__init__ 3232235786%N "Living Room") = None
  ∧ AppleTV.identifier store_scan (AppleTV.__init__ 3232235787%N "Kitchen") = None
  ∧ AppleTV.__eq__ store_scan (AppleTV.__init__ 3232235786%N "Living Room")
      (AppleTV.ObjAppleTV (AppleTV.__init__ 3232235787%N "Kitchen")) = true.
Proof. repeat split. Qed.

Lemma eq_iff_identifier_witness :
  AppleTV.__eq__ store_scan conf_all (AppleTV.ObjAppleTV conf_mrp) = true.
Proof.
  apply (proj2 (proj1 (eq_iff_identifier store_scan conf_all conf_mrp))).
  reflexivity.
Defined.

(** ** Credentials *)

(** C6. [set_credentials] returns true and sets the credentials of the
    service registered for the protocol; when no service is registered for
    it, it returns false and the store and the configuration are as
    before. The function has no exceptional outcome. *)
Theorem set_credentials_soft_failure (h : Heap) (self : AppleTV.t)
    (protocol : Protocol) (credentials : option string) :
  (∀ service,
     AppleTV.get_service self protocol = Some service →
     ∃ h', AppleTV.set_credentials h self protocol credentials
           = (true, (h', self))
           ∧ BaseService.credentials (h' service) = credentials)
  ∧ (AppleTV.get_service self protocol = None →
     AppleTV.set_credentials h self protocol credentials = (false, (h, self))).
Proof.
  unfold AppleTV.set_credentials. split.
  - intros service ->. eexists. split; [reflexivity|].
    rewrite fn_lookup_insert. reflexivity.
  - intros ->. reflexivity.
Qed.

Lemma set_credentials_soft_failure_witness :
  (∃ h', AppleTV.set_credentials store_scan conf_all MRP (Some "token")
         = (true, (h', conf_all))
         ∧ BaseService.credentials (h' 0) = Some "token")
  ∧ AppleTV.set_credentials store_scan conf_mrp AirPlay (Some "token")
    = (false, (store_scan, conf_mrp)).
Proof.
  split.
  - apply (proj1 (set_credentials_soft_failure store_scan conf_all MRP
                    (Some "token")) 0).
    reflexivity.
  - apply (proj2 (set_credentials_soft_failure store_scan conf_mrp AirPlay
                    (Some "token"))).
    reflexivity.
Defined.

(** Two protocols of a configuration never share a record. *)
Lemma class_inv_distinct (h : Heap) (self : AppleTV.t) (p q : Protocol)
    (s r : loc) :
  class_inv h self →
  AppleTV.get_service self p = Some s →
  AppleTV.get_service self q = Some r →
  p ≠ q → s ≠ r.
Proof.
  intros [_ Hprot] Hp Hq Hne ->.
  rewrite list.Forall_forall in Hprot.
  apply dict_get_elem_of, Hprot in Hp.
  apply dict_get_elem_of, Hprot in Hq.
  simpl in Hp, Hq. congruence.
Qed.

(** C10. When a service is registered for [p], [set_credentials] changes
    the credentials of that record and nothing else: the configuration
    (address, name, registered protocols and the records they denote) is
    the same, every other record of the store is the same, and the
    identifier, protocol, port and properties of the record itself are the
    same. Under the class invariant the records of the other protocols are
    other records, hence the same as before. *)
Theorem set_credentials_frame (h : Heap) (self : AppleTV.t) (p : Protocol)
    (c : option string) (service : loc) :
  AppleTV.get_service self p = Some service →
  ∃ h' self',
    AppleTV.set_credentials h self p c = (true, (h', self'))
    ∧ AppleTV.address self' = AppleTV.address self
    ∧ AppleTV.name self' = AppleTV.name self
    ∧ AppleTV._services self' = AppleTV._services self
    ∧ (∀ q, registered self' q ↔ registered self q)
    ∧ (∀ q, AppleTV.get_service self' q = AppleTV.get_service self q)
    ∧ (∀ l, l ≠ service → h' l = h l)
    ∧ (class_inv h self →
       ∀ q s, q ≠ p → AppleTV.get_service self q = Some s → h' s = h s)
    ∧ BaseService.identifier (h' service) = BaseService.identifier (h service)
    ∧ BaseService.protocol (h' service) = BaseService.protocol (h service)
    ∧ BaseService.port (h' service) = BaseService.port (h service)
    ∧ BaseService.properties (h' service) = BaseService.properties (h service)
    ∧ BaseService.credentials (h' service) = c.
Proof.
  intros Hget. unfold AppleTV.set_credentials. rewrite Hget.
  eexists _, self. split; [reflexivity|].
  do 3 (split; [reflexivity|]).
  split; [intros q; reflexivity|].
  split; [intros q; reflexivity|].
  split; [|split].
  - intros l Hl. apply fn_lookup_insert_ne. congruence.
  - intros Hinv q s Hq Hs. apply fn_lookup_insert_ne.
    apply (class_inv_distinct h self p q); auto.
  - rewrite fn_lookup_insert. repeat split.
Qed.

Lemma set_credentials_frame_witness :
  ∃ h' self',
    AppleTV.set_credentials store_scan conf_all MRP (Some "token")
    = (true, (h', self'))
    ∧ AppleTV.address self' = AppleTV.address conf_all
    ∧ AppleTV.name self' = AppleTV.name conf_all
    ∧ AppleTV._services self' = AppleTV._services conf_all
    ∧ (∀ q, registered self' q ↔ registered conf_all q)
    ∧ (∀ q, AppleTV.get_service self' q = AppleTV.get_service conf_all q)
    ∧ (∀ l, l ≠ 0 → h' l = store_scan l)
    ∧ (class_inv store_scan conf_all →
       ∀ q s, q ≠ MRP → AppleTV.get_service conf_all q = Some s →
              h' s = store_scan s)
    ∧ BaseService.identifier (h' 0) = BaseService.identifier (store_scan 0)
    ∧ BaseService.protocol (h' 0) = BaseService.protocol (store_scan 0)
    ∧ BaseService.port (h' 0) = BaseService.port (store_scan 0)
    ∧ BaseService.properties (h' 0) = BaseService.properties (store_scan 0)
    ∧ BaseService.credentials (h' 0) = Some "token".
Proof.
  apply (set_credentials_frame store_scan conf_all MRP (Some "token") 0).
  reflexivity.
Defined.

(** The configuration of the witness satisfies the invariant, so the DMAP
    and AirPlay records are as before. *)
Example set_credentials_frame_run :
  class_inv store_scan conf_all
  ∧ ∃ h',
      AppleTV.set_credentials store_scan conf_all MRP (Some "token")
      = (true, (h', conf_all))
      ∧ h' 0 = MrpService (Some "ABC") 49152 (Some "token")
                 (Some {[ "SystemBuildVersion" := "18J386" ]})
      ∧ h' 1 = store_scan 1
      ∧ h' 2 = store_scan 2.
Proof.
  split; [apply (bool_decide_unpack _); vm_compute; exact I|].
  eexists. split; [reflexivity|]. repeat split.
Qed.

(** ** Device information *)

Section DeviceInfoFacts.

Variable lookup_model : option string → option string.
Variable lookup_version : option string → option string.
Variable str_upper : string → string.

(** C7. The operating system of [device_info] is TvOS when an MRP service
    is registered, also next to a DMAP service; it is Legacy when a DMAP
    service is registered and no MRP service; it is Unknown otherwise. *)
Theorem device_info_os_type (h : Heap) (self : AppleTV.t) :
  (registered self MRP →
   os_type (AppleTV.device_info lookup_model lookup_version str_upper h self) = TvOS)
  ∧ (registered self MRP → registered self DMAP →
     os_type (AppleTV.device_info lookup_model lookup_version str_upper h self) = TvOS)
  ∧ (¬ registered self MRP → registered self DMAP →
     os_type (AppleTV.device_info lookup_model lookup_version str_upper h self) = Legacy)
  ∧ (¬ registered self MRP → ¬ registered self DMAP →
     os_type (AppleTV.device_info lookup_model lookup_version str_upper h self) = Unknown).
Proof.
  unfold AppleTV.device_info. simpl.
  repeat split.
  - intros Hmrp. apply contains_registered in Hmrp. rewrite Hmrp. reflexivity.
  - intros Hmrp _. apply contains_registered in Hmrp. rewrite Hmrp.
    reflexivity.
  - intros Hmrp Hdmap.
    apply contains_not_registered in Hmrp. apply contains_registered in Hdmap.
    rewrite Hmrp, Hdmap. reflexivity.
  - intros Hmrp Hdmap.
    apply contains_not_registered in Hmrp, Hdmap.
    rewrite Hmrp, Hdmap. reflexivity.
Qed.

Lemma upper_truthy (o : option string) :
  str_upper "" = "" →
  (if str_truthy o then str_upper <$> o else o) = str_upper <$> o.
Proof.
  intros Hempty. destruct o as [[|c s]|]; simpl; [|reflexivity|reflexivity].
  rewrite Hempty. reflexivity.
Qed.

(** C8. The MAC address of [device_info] is the value of [macAddress] in
    the combined properties, or failing that the value of [deviceid], in
    upper case; it is absent when the combined properties have neither
    key. A [macAddress] of [aa:bb:cc] gives [AA:BB:CC]. The upper-casing
    function is any function that, like [str.upper], maps the empty string
    to itself (the code leaves an empty value as it is) and, for the
    example, [aa:bb:cc] to [AA:BB:CC]. *)
Theorem device_info_mac (h : Heap) (self : AppleTV.t) :
  str_upper "" = "" →
  (∀ v, AppleTV._all_properties h self !! "macAddress" = Some v →
        mac (AppleTV.device_info lookup_model lookup_version str_upper h self)
        = Some (str_upper v))
  ∧ (∀ v, AppleTV._all_properties h self !! "macAddress" = None →
          AppleTV._all_properties h self !! "deviceid" = Some v →
          mac (AppleTV.device_info lookup_model lookup_version str_upper
                 h self)
          = Some (str_upper v))
  ∧ (AppleTV._all_properties h self !! "macAddress" = None →
     AppleTV._all_properties h self !! "deviceid" = None →
     mac (AppleTV.device_info lookup_model lookup_version str_upper h self)
     = None)
  ∧ (str_upper "aa:bb:cc" = "AA:BB:CC" →
     AppleTV._all_properties h self !! "macAddress" = Some "aa:bb:cc" →
     mac (AppleTV.device_info lookup_model lookup_version str_upper h self)
     = Some "AA:BB:CC").
Proof.
  intros Hempty.
  unfold AppleTV.device_info. simpl. rewrite (upper_truthy _ Hempty).
  repeat split.
  - intros v ->. reflexivity.
  - intros v -> ->. reflexivity.
  - intros -> ->. reflexivity.
  - intros Hmac ->. simpl. rewrite Hmac. reflexivity.
Qed.

(** C9. Without a registered service, and with lookups that answer absent
    to an absent argument, [device_info] has no version, build, model or
    MAC address and its operating system is Unknown. *)
Theorem device_info_no_service (h : Heap) (self : AppleTV.t) :
  lookup_model None = None →
  lookup_version None = None →
  AppleTV._services self = [] →
  AppleTV.device_info lookup_model lookup_version str_upper h self
  = mkDeviceInfo Unknown None None None None.
Proof.
  intros Hmodel Hversion Hnil.
  unfold AppleTV.device_info, AppleTV._all_properties, AppleTV.services.
  rewrite Hnil. simpl. rewrite !lookup_empty. simpl.
  rewrite Hmodel, Hversion. reflexivity.
Qed.

End DeviceInfoFacts.

Lemma device_info_os_type_witness :
  os_type (AppleTV.device_info table_model table_version upper store_scan conf_all)
  = TvOS
  ∧ os_type (AppleTV.device_info table_model table_version upper store_scan conf_dmap)
    = Legacy
  ∧ os_type (AppleTV.device_info table_model table_version upper store_scan
               conf_airplay)
    = Unknown.
Proof.
  split; [|split].
  - apply (proj1 (proj2 (device_info_os_type table_model table_version upper
                           store_scan conf_all)));
      apply contains_registered; reflexivity.
  - apply (proj1 (proj2 (proj2 (device_info_os_type table_model table_version upper
                                  store_scan conf_dmap)))).
    + apply contains_not_registered. reflexivity.
    + apply contains_registered. reflexivity.
  - apply (proj2 (proj2 (proj2 (device_info_os_type table_model table_version upper
                                  store_scan conf_airplay))));
      apply contains_not_registered; reflexivity.
Defined.

Lemma device_info_mac_witness :
  mac (AppleTV.device_info table_model table_version upper store_scan conf_all)
  = Some "AA:BB:CC"
  ∧ mac (AppleTV.device_info table_model table_version upper store_scan
           conf_mrp)
    = None.
Proof.
  split.
  - apply (proj2 (proj2 (proj2 (device_info_mac table_model table_version
                                  upper store_scan conf_all eq_refl)))).
    + reflexivity.
    + vm_compute. reflexivity.
  - apply (proj1 (proj2 (proj2 (device_info_mac table_model table_version
                                  upper store_scan conf_mrp eq_refl))));
      vm_compute; reflexivity.
Defined.

Lemma device_info_no_service_witness :
  AppleTV.device_info table_model table_version upper store_scan living_room
  = mkDeviceInfo Unknown None None None None.
Proof.
  apply (device_info_no_service table_model table_version upper store_scan
           living_room); reflexivity.
Defined.

(** ** Registration and merging *)

Lemma dict_update_lookup (self other : gmap string string) (k : string) :
  dict_update self other !! k
  = match other !! k with
    | Some v => Some v
    | None => self !! k
    end.
Proof.
  unfold dict_update. rewrite lookup_union.
  destruct (other !! k), (self !! k); reflexivity.
Qed.

Lemma str_or_same (a : option string) : str_or a a = a.
Proof. unfold str_or. destruct (str_truthy a); reflexivity. Qed.

(** A merge of two records of one protocol succeeds, rewrites the
    properties and the credentials of [self] and leaves every other record
    alone. *)
Lemma merge_same_protocol (h : Heap) (self other : loc) :
  BaseService.protocol (h other) = BaseService.protocol (h self) →
  ∃ h',
    BaseService.merge h self other = Return h'
    ∧ (∀ l, l ≠ self → h' l = h l)
    ∧ h' self
      = BaseService.mk
          (BaseService.identifier (h self))
          (BaseService.protocol (h self))
          (BaseService.port (h self))
          (dict_update (BaseService.properties (h self))
                       (BaseService.properties (h other)))
          (str_or (BaseService.credentials (h other))
                  (BaseService.credentials (h self))).
Proof.
  intros Hprot. unfold BaseService.merge. rewrite decide_True by exact Hprot.
  eexists. split; [reflexivity|]. split.
  - intros l Hl. rewrite !fn_lookup_insert_ne by congruence. reflexivity.
  - rewrite !fn_lookup_insert.
    unfold BaseService.with_credentials, BaseService.with_properties. simpl.
    f_equal. destruct (decide (self = other)) as [->|Hne].
    + rewrite fn_lookup_insert. reflexivity.
    + rewrite fn_lookup_insert_ne by exact Hne. reflexivity.
Qed.

Lemma merge_Return_protocol (h h' : Heap) (self other : loc) :
  BaseService.merge h self other = Return h' →
  ∀ l, BaseService.protocol (h' l) = BaseService.protocol (h l).
Proof.
  unfold BaseService.merge.
  destruct (decide _) as [Hprot|]; [|discriminate].
  destruct (merge_same_protocol h self other Hprot) as (h0 & Hm & Hother & Hself).
  unfold BaseService.merge in Hm. rewrite decide_True in Hm by exact Hprot.
  intros Heq l. rewrite Heq in Hm. injection Hm as <-.
  destruct (decide (l = self)) as [->|Hne].
  - rewrite Hself. reflexivity.
  - rewrite Hother by exact Hne. reflexivity.
Qed.

(** The invariant holds of a new configuration and is kept by both
    mutators. *)
Lemma class_inv_init (h : Heap) (address : IPv4Address) (name : string) :
  class_inv h (AppleTV.__init__ address name).
Proof. split; constructor. Qed.

Lemma class_inv_protocol (h h' : Heap) (self : AppleTV.t) :
  (∀ l, BaseService.protocol (h' l) = BaseService.protocol (h l)) →
  class_inv h self → class_inv h' self.
Proof.
  intros Hprot [Hnd Hall]. split; [exact Hnd|].
  eapply list.Forall_impl; [exact Hall|].
  intros e He. simpl in *. rewrite Hprot. exact He.
Qed.

Lemma class_inv_get_service (h : Heap) (self : AppleTV.t) (p : Protocol)
    (s : loc) :
  class_inv h self → AppleTV.get_service self p = Some s →
  BaseService.protocol (h s) = p.
Proof.
  intros [_ Hall] Hget. rewrite list.Forall_forall in Hall.
  apply dict_get_elem_of, Hall in Hget. exact Hget.
Qed.

Lemma add_service_inv (h h' : Heap) (self self' : AppleTV.t) (service : loc) :
  class_inv h self →
  AppleTV.add_service h self service = Return (h', self') →
  class_inv h' self'.
Proof.
  intros Hinv. unfold AppleTV.add_service.
  destruct (dict_get _ _) as [existing|] eqn:Hget.
  - destruct (BaseService.merge h existing service) as [h0|] eqn:Hmerge;
      [|discriminate].
    intros [= <- <-].
    eapply class_inv_protocol; [|exact Hinv].
    eapply merge_Return_protocol, Hmerge.
  - intros [= <- <-]. destruct Hinv as [Hnd Hall].
    rewrite (dict_setitem_new _ _ _ Hget).
    split; simpl.
    + rewrite fmap_app. apply list.NoDup_app. split; [exact Hnd|].
      split; [|apply NoDup_singleton].
      intros k Hk Hk'. apply list_elem_of_singleton in Hk'. simpl in Hk'.
      subst k. apply dict_get_None_keys in Hget. contradiction.
    + apply list.Forall_app. split; [exact Hall|].
      apply Forall_singleton. reflexivity.
Qed.

Lemma set_credentials_inv (h h' : Heap) (self self' : AppleTV.t)
    (p : Protocol) (c : option string) (b : bool) :
  class_inv h self →
  AppleTV.set_credentials h self p c = (b, (h', self')) →
  class_inv h' self'.
Proof.
  intros Hinv. unfold AppleTV.set_credentials.
  destruct (AppleTV.get_service self p) as [s|]; intros [= <- <- <-].
  - eapply class_inv_protocol; [|exact Hinv].
    intros l. destruct (decide (s = l)) as [->|Hne].
    + rewrite fn_lookup_insert. reflexivity.
    + rewrite fn_lookup_insert_ne by exact Hne. reflexivity.
  - exact Hinv.
Qed.

(** Under the invariant a registered protocol has one entry and one
    record. *)
Lemma filter_key_absent (d : list (Protocol * loc)) (P : Protocol) :
  P ∉ d.*1 → filter (λ e, e.1 = P) d = [].
Proof.
  induction d as [|[k v] d IH]; simpl; intros Hnot; [reflexivity|].
  apply not_elem_of_cons in Hnot as [Hne Hnot].
  rewrite filter_cons_False by (simpl; congruence). auto.
Qed.

Lemma filter_key_unique (d : list (Protocol * loc)) (P : Protocol) (o : loc) :
  NoDup d.*1 → dict_get d P = Some o → filter (λ e, e.1 = P) d = [(P, o)].
Proof.
  induction d as [|[k v] d IH]; simpl; intros Hnd Hget; [discriminate|].
  apply list.NoDup_cons in Hnd as [Hk Hnd].
  destruct (decide (P = k)) as [->|Hne].
  - injection Hget as ->.
    rewrite filter_cons_True by reflexivity.
    rewrite filter_key_absent by exact Hk. reflexivity.
  - rewrite filter_cons_False by (simpl; congruence). auto.
Qed.

Lemma filter_protocol_values (h : Heap) (d : list (Protocol * loc))
    (P : Protocol) :
  Forall (λ e, BaseService.protocol (h e.2) = e.1) d →
  filter (λ l, BaseService.protocol (h l) = P) d.*2
  = (filter (λ e, e.1 = P) d).*2.
Proof.
  induction 1 as [|[k v] d Hkv Hall IH]; [reflexivity|].
  simpl in Hkv. change (((k, v) :: d).*2) with (v :: d.*2).
  destruct (decide (k = P)) as [->|Hne].
  - rewrite !filter_cons_True by (simpl; first [assumption | reflexivity]).
    simpl. f_equal. exact IH.
  - rewrite !filter_cons_False by (simpl; congruence). exact IH.
Qed.

Lemma class_inv_one_record (h : Heap) (self : AppleTV.t) (P : Protocol)
    (o : loc) :
  class_inv h self →
  AppleTV.get_service self P = Some o →
  filter (λ e, e.1 = P) (AppleTV._services self) = [(P, o)]
  ∧ filter (λ l, BaseService.protocol (h l) = P) (AppleTV.services self) = [o].
Proof.
  intros [Hnd Hall] Hget.
  pose proof (filter_key_unique _ _ _ Hnd Hget) as Hkeys.
  split; [exact Hkeys|].
  unfold AppleTV.services, dict_values.
  rewrite (filter_protocol_values h _ P Hall), Hkeys. reflexivity.
Qed.

(** C5. Under the class invariant, two calls of [add_service] with records
    [r1] and [r2] of protocol [P] both return; afterwards one record is
    registered for [P]. It is the object registered after the first call
    (the first record when [P] was not registered before, the record
    registered before otherwise), merged into and not replaced, and its
    properties are those it had after the first call updated with those of
    [r2], the values of [r2] winning. When [P] was not registered before,
    these are the properties of [r1] updated with those of [r2]; when a
    record was registered before, the first call has updated the
    properties of that record with those of [r1]. *)
Theorem add_service_twice_merges (h : Heap) (self : AppleTV.t) (r1 r2 : loc)
    (P : Protocol) :
  class_inv h self →
  BaseService.protocol (h r1) = P →
  BaseService.protocol (h r2) = P →
  ∃ h1 c1 h2 c2 o,
    AppleTV.add_service h self r1 = Return (h1, c1)
    ∧ AppleTV.add_service h1 c1 r2 = Return (h2, c2)
    ∧ AppleTV.get_service c1 P = Some o
    ∧ AppleTV.get_service c2 P = Some o
    ∧ o = default r1 (AppleTV.get_service self P)
    ∧ filter (λ e, e.1 = P) (AppleTV._services c2) = [(P, o)]
    ∧ filter (λ l, BaseService.protocol (h2 l) = P) (AppleTV.services c2) = [o]
    ∧ BaseService.properties (h2 o)
      = dict_update (BaseService.properties (h1 o))
                    (BaseService.properties (h1 r2))
    ∧ (AppleTV.get_service self P = None →
       BaseService.properties (h2 o)
       = dict_update (BaseService.properties (h r1))
                     (BaseService.properties (h r2))
       ∧ ∀ k, BaseService.properties (h2 o) !! k
              = match BaseService.properties (h r2) !! k with
                | Some v => Some v
                | None => BaseService.properties (h r1) !! k
                end)
    ∧ (∀ e, AppleTV.get_service self P = Some e →
            BaseService.properties (h1 o)
            = dict_update (BaseService.properties (h e))
                          (BaseService.properties (h r1))).
Proof.
  intros Hinv Hr1 Hr2.
  (* the first call *)
  assert (∃ h1 c1 o,
            AppleTV.add_service h self r1 = Return (h1, c1)
            ∧ AppleTV.get_service c1 P = Some o
            ∧ o = default r1 (AppleTV.get_service self P)
            ∧ (AppleTV.get_service self P = None → h1 = h)
            ∧ (∀ e, AppleTV.get_service self P = Some e →
                    BaseService.properties (h1 o)
                    = dict_update (BaseService.properties (h e))
                                  (BaseService.properties (h r1))))
    as (h1 & c1 & o & Hadd1 & Hget1 & Ho & Hnew & Hold).
  { unfold AppleTV.add_service, AppleTV.get_service. rewrite Hr1.
    destruct (dict_get (AppleTV._services self) P) as [e|] eqn:Hget.
    - pose proof (class_inv_get_service h self P e Hinv Hget) as He.
      destruct (merge_same_protocol h e r1) as (h1 & Hm & _ & Hself);
        [congruence|].
      rewrite Hm. exists h1, self, e.
      repeat split; try assumption; try discriminate.
      intros e' [= <-]. rewrite Hself. reflexivity.
    - eexists h, _, r1. repeat split; try discriminate.
      simpl. apply dict_get_setitem_eq. }
  pose proof (add_service_inv _ _ _ _ _ Hinv Hadd1) as Hinv1.
  (* the second call finds the record of the first *)
  assert (BaseService.protocol (h1 r2) = P) as Hr2'.
  { destruct (AppleTV.get_service self P) as [e|] eqn:Hget.
    - revert Hadd1. unfold AppleTV.add_service.
      unfold AppleTV.get_service in Hget. rewrite Hr1, Hget.
      destruct (BaseService.merge h e r1) as [h0|] eqn:Hm; [|discriminate].
      intros [= <- <-]. rewrite (merge_Return_protocol _ _ _ _ Hm). exact Hr2.
    - rewrite (Hnew eq_refl). exact Hr2. }
  pose proof (class_inv_get_service h1 c1 P o Hinv1 Hget1) as Hoprot.
  destruct (merge_same_protocol h1 o r2) as (h2 & Hm2 & _ & Hself2);
    [congruence|].
  assert (AppleTV.add_service h1 c1 r2 = Return (h2, c1)) as Hadd2.
  { unfold AppleTV.add_service. unfold AppleTV.get_service in Hget1.
    rewrite Hr2', Hget1, Hm2. reflexivity. }
  pose proof (add_service_inv _ _ _ _ _ Hinv1 Hadd2) as Hinv2.
  destruct (class_inv_one_record h2 c1 P o Hinv2 Hget1) as [Hkeys Hvals].
  assert (BaseService.properties (h2 o)
          = dict_update (BaseService.properties (h1 o))
                        (BaseService.properties (h1 r2))) as Hprops.
  { rewrite Hself2. reflexivity. }
  exists h1, c1, h2, c1, o.
  do 8 (split; [assumption|]).
  split; [|exact Hold].
  intros Hnone. rewrite Hprops, (Hnew Hnone), Ho, Hnone. simpl.
  split; [reflexivity|].
  intros k. apply dict_update_lookup.
Qed.

Lemma add_service_twice_merges_witness :
  ∃ h1 c1 h2 c2 o,
    AppleTV.add_service store_scan living_room 0 = Return (h1, c1)
    ∧ AppleTV.add_service h1 c1 3 = Return (h2, c2)
    ∧ AppleTV.get_service c1 MRP = Some o
    ∧ AppleTV.get_service c2 MRP = Some o
    ∧ o = default 0 (AppleTV.get_service living_room MRP)
    ∧ filter (λ e, e.1 = MRP) (AppleTV._services c2) = [(MRP, o)]
    ∧ filter (λ l, BaseService.protocol (h2 l) = MRP) (AppleTV.services c2)
      = [o]
    ∧ BaseService.properties (h2 o)
      = dict_update (BaseService.properties (h1 o))
                    (BaseService.properties (h1 3))
    ∧ (AppleTV.get_service living_room MRP = None →
       BaseService.properties (h2 o)
       = dict_update (BaseService.properties (store_scan 0))
                     (BaseService.properties (store_scan 3))
       ∧ ∀ k, BaseService.properties (h2 o) !! k
              = match BaseService.properties (store_scan 3) !! k with
                | Some v => Some v
                | None => BaseService.properties (store_scan 0) !! k
                end)
    ∧ (∀ e, AppleTV.get_service living_room MRP = Some e →
            BaseService.properties (h1 o)
            = dict_update (BaseService.properties (store_scan e))
                          (BaseService.properties (store_scan 0))).
Proof.
  apply (add_service_twice_merges store_scan living_room 0 3 MRP).
  - apply (bool_decide_unpack _). vm_compute. exact I.
  - reflexivity.
  - reflexivity.
Defined.

(** The run of the witness, evaluated: the build of the second record
    replaces that of the first, and its model is added. *)
Example add_service_twice_run :
  ∃ h2 c2,
    (match AppleTV.add_service store_scan living_room 0 with
     | Return (h1, c1) => AppleTV.add_service h1 c1 3
     | Raise e => Raise e
     end) = Return (h2, c2)
    ∧ AppleTV._services c2 = [(MRP, 0)]
    ∧ BaseService.properties (h2 0) !! "SystemBuildVersion" = Some "18K561"
    ∧ BaseService.properties (h2 0) !! "model" = Some "J105aAP"
    ∧ BaseService.credentials (h2 0) = Some "c0ffee".
Proof.
  eexists _, _. split; [reflexivity|].
  repeat split; vm_compute; reflexivity.
Qed.

(** A record registered before the two calls keeps its properties: with
    an MRP record that has a build already registered, two further MRP
    records leave one MRP record whose properties are not the union of the
    properties of the two. *)
Lemma add_service_twice_keeps_earlier_properties :
  class_inv store_scan conf_mrp
  ∧ BaseService.protocol (store_scan 4) = MRP
  ∧ BaseService.protocol (store_scan 5) = MRP
  ∧ ∃ h1 c1 h2 c2,
      AppleTV.add_service store_scan conf_mrp 4 = Return (h1, c1)
      ∧ AppleTV.add_service h1 c1 5 = Return (h2, c2)
      ∧ AppleTV.get_service c2 MRP = Some 0
      ∧ BaseService.properties (h2 0) !! "SystemBuildVersion" = Some "18J386"
      ∧ dict_update (BaseService.properties (store_scan 4))
                    (BaseService.properties (store_scan 5))
        !! "SystemBuildVersion" = None
      ∧ BaseService.properties (h2 0)
        ≠ dict_update (BaseService.properties (store_scan 4))
                      (BaseService.properties (store_scan 5)).
Proof.
  split; [apply (bool_decide_unpack _); vm_compute; exact I|].
  split; [reflexivity|]. split; [reflexivity|].
  eexists _, _, _, _.
  split; [reflexivity|]. split; [reflexivity|]. split; [reflexivity|].
  split; [vm_compute; reflexivity|]. split; [vm_compute; reflexivity|].
  intros Heq.
  apply (f_equal (λ m : gmap string string, m !! "SystemBuildVersion")) in Heq.
  vm_compute in Heq. discriminate Heq.
Qed.

(** * Further properties of the module *)

(** ** Registration *)

Lemma add_service_fresh (h : Heap) (self : AppleTV.t) (service : loc) :
  AppleTV.get_service self (BaseService.protocol (h service)) = None →
  ∃ self',
    AppleTV.add_service h self service = Return (h, self')
    ∧ AppleTV.address self' = AppleTV.address self
    ∧ AppleTV.name self' = AppleTV.name self
    ∧ AppleTV.services self' = AppleTV.services self ++ [service]
    ∧ AppleTV.get_service self' (BaseService.protocol (h service))
      = Some service
    ∧ (∀ q, q ≠ BaseService.protocol (h service) →
            AppleTV.get_service self' q = AppleTV.get_service self q).
Proof.
  unfold AppleTV.get_service, AppleTV.add_service. intros Hnone.
  rewrite Hnone. eexists. split; [reflexivity|]. simpl.
  split; [reflexivity|]. split; [reflexivity|]. split; [|split].
  - unfold AppleTV.services, dict_values. simpl.
    rewrite (dict_setitem_new _ _ _ Hnone), fmap_app. reflexivity.
  - apply dict_get_setitem_eq.
  - intros q Hq. apply dict_get_setitem_ne. congruence.
Qed.

(** The first registration of a protocol appends the record to [services],
    leaves the store, the address, the name and the other protocols as
    they are, and makes [get_service] return the record itself. *)
Theorem add_service_new_protocol (h : Heap) (self : AppleTV.t) (service : loc) :
  AppleTV.get_service self (BaseService.protocol (h service)) = None →
  ∃ self',
    AppleTV.add_service h self service = Return (h, self')
    ∧ AppleTV.address self' = AppleTV.address self
    ∧ AppleTV.name self' = AppleTV.name self
    ∧ AppleTV.services self' = AppleTV.services self ++ [service]
    ∧ AppleTV.get_service self' (BaseService.protocol (h service))
      = Some service
    ∧ (∀ q, q ≠ BaseService.protocol (h service) →
            AppleTV.get_service self' q = AppleTV.get_service self q).
Proof. exact (add_service_fresh h self service). Qed.

Lemma add_service_new_protocol_witness :
  ∃ self',
    AppleTV.add_service store_scan conf_mrp 1 = Return (store_scan, self')
    ∧ AppleTV.address self' = AppleTV.address conf_mrp
    ∧ AppleTV.name self' = AppleTV.name conf_mrp
    ∧ AppleTV.services self' = AppleTV.services conf_mrp ++ [1]
    ∧ AppleTV.get_service self' (BaseService.protocol (store_scan 1)) = Some 1
    ∧ (∀ q, q ≠ BaseService.protocol (store_scan 1) →
            AppleTV.get_service self' q = AppleTV.get_service conf_mrp q).
Proof.
  apply (add_service_new_protocol store_scan conf_mrp 1). reflexivity.
Defined.

(** A registration never takes a record out of a configuration and never
    puts another record in the place of a registered one: whatever
    [get_service] found before a call that returns, it finds after it. When
    the protocol of the incoming record is registered already, the
    configuration is the same and the store changes at the registered
    record only. *)
Theorem add_service_keeps_registered (h h' : Heap) (self self' : AppleTV.t)
    (service : loc) :
  AppleTV.add_service h self service = Return (h', self') →
  AppleTV.address self' = AppleTV.address self
  ∧ AppleTV.name self' = AppleTV.name self
  ∧ (∀ q s, AppleTV.get_service self q = Some s →
            AppleTV.get_service self' q = Some s)
  ∧ (∀ e, AppleTV.get_service self (BaseService.protocol (h service)) = Some e →
          self' = self ∧ ∀ l, l ≠ e → h' l = h l).
Proof.
  unfold AppleTV.add_service, AppleTV.get_service.
  destruct (dict_get _ _) as [existing|] eqn:Hget.
  - destruct (BaseService.merge h existing service) as [h0|] eqn:Hmerge;
      [|discriminate].
    intros [= <- <-].
    split; [reflexivity|]. split; [reflexivity|]. split; [auto|].
    intros e [= <-]. split; [reflexivity|]. intros l Hl.
    revert Hmerge. unfold BaseService.merge.
    destruct (decide _) as [Hprot|]; [|discriminate].
    intros [= <-]. rewrite !fn_lookup_insert_ne by congruence. reflexivity.
  - intros [= <- <-]. simpl. repeat split; try discriminate.
    intros q s Hq. rewrite dict_get_setitem_ne; [exact Hq|].
    intros <-. congruence.
Qed.

Lemma add_service_keeps_registered_witness :
  (∃ self',
     AppleTV.add_service store_scan conf_mrp 1 = Return (store_scan, self')
     ∧ AppleTV.get_service self' MRP = Some 0)
  ∧ (∃ h',
       AppleTV.add_service store_scan conf_mrp 3 = Return (h', conf_mrp)
       ∧ AppleTV.get_service conf_mrp MRP = Some 0
       ∧ ∀ l, l ≠ 0 → h' l = store_scan l).
Proof.
  split.
  - eexists. split; [reflexivity|].
    eapply (proj1 (proj2 (proj2
              (add_service_keeps_registered store_scan store_scan conf_mrp _ 1
                 eq_refl)))).
    reflexivity.
  - eexists. split; [reflexivity|]. split; [reflexivity|].
    apply (proj2 (proj2 (proj2
             (add_service_keeps_registered store_scan _ conf_mrp conf_mrp 3
                eq_refl))) 0).
    reflexivity.
Defined.

(** The class invariant holds of a new configuration and after every call
    of [add_service] that returns and every call of [set_credentials]. *)
Theorem class_inv_kept (h : Heap) (self : AppleTV.t) :
  (∀ address name, class_inv h (AppleTV.__init__ address name))
  ∧ (∀ service h' self',
       class_inv h self →
       AppleTV.add_service h self service = Return (h', self') →
       class_inv h' self')
  ∧ (∀ p c,
       class_inv h self →
       class_inv (AppleTV.set_credentials h self p c).2.1
                 (AppleTV.set_credentials h self p c).2.2).
Proof.
  split; [|split].
  - intros address name. apply class_inv_init.
  - intros service h' self' Hinv Hadd.
    exact (add_service_inv _ _ _ _ _ Hinv Hadd).
  - intros p c Hinv.
    destruct (AppleTV.set_credentials h self p c) as [b [h' self']] eqn:Hset.
    exact (set_credentials_inv _ _ _ _ _ _ _ Hinv Hset).
Qed.

Lemma class_inv_kept_witness :
  class_inv store_scan living_room
  ∧ (∃ h' self',
       AppleTV.add_service store_scan living_room 0 = Return (h', self')
       ∧ class_inv h' self')
  ∧ class_inv
      (AppleTV.set_credentials store_scan conf_all DMAP (Some "1234")).2.1
      (AppleTV.set_credentials store_scan conf_all DMAP (Some "1234")).2.2.
Proof.
  split; [|split].
  - apply (proj1 (class_inv_kept store_scan living_room)).
  - eexists _, _. split; [reflexivity|].
    eapply (proj1 (proj2 (class_inv_kept store_scan living_room)) 0).
    + apply (bool_decide_unpack _). vm_compute. exact I.
    + reflexivity.
  - apply (proj2 (proj2 (class_inv_kept store_scan conf_all))).
    apply (bool_decide_unpack _). vm_compute. exact I.
Defined.

(** Under the invariant no record is registered twice and a configuration
    holds at most three records, hence at most three identifiers. *)
Lemma protocols_at_most_three (l : list Protocol) :
  NoDup l → (length l ≤ 3)%nat.
Proof.
  intros Hnd.
  change 3 with (length [DMAP; MRP; AirPlay]).
  apply submseteq_length, NoDup_submseteq; [exact Hnd|].
  intros [] _; set_solver.
Qed.

Lemma class_inv_keys (h : Heap) (self : AppleTV.t) :
  class_inv h self →
  (AppleTV._services self).*1
  = (λ l, BaseService.protocol (h l)) <$> AppleTV.services self.
Proof.
  intros [_ Hall]. unfold AppleTV.services, dict_values.
  induction Hall as [|[k v] d Hkv Hall IH]; [reflexivity|].
  simpl in Hkv. rewrite !fmap_cons. simpl. f_equal; [congruence | exact IH].
Qed.

Lemma length_omap_le (h : Heap) (l : list loc) :
  (length (omap (λ x, BaseService.identifier (h x)) l) ≤ length l)%nat.
Proof.
  induction l as [|s l IH]; [reflexivity|].
  change (omap (λ x, BaseService.identifier (h x)) (s :: l))
    with (match BaseService.identifier (h s) with
          | Some i => i :: omap (λ x, BaseService.identifier (h x)) l
          | None => omap (λ x, BaseService.identifier (h x)) l
          end).
  destruct (BaseService.identifier (h s)); simpl length; lia.
Qed.

Theorem services_distinct_at_most_three (h : Heap) (self : AppleTV.t) :
  class_inv h self →
  NoDup (AppleTV.services self)
  ∧ (length (AppleTV.services self) ≤ 3)%nat
  ∧ (length (AppleTV.all_identifiers h self)
     ≤ length (AppleTV.services self))%nat.
Proof.
  intros Hinv. pose proof (class_inv_keys h self Hinv) as Hkeys.
  destruct Hinv as [Hnd _].
  split; [|split].
  - rewrite Hkeys in Hnd. exact (NoDup_fmap_1 _ _ Hnd).
  - apply protocols_at_most_three in Hnd.
    rewrite length_fmap in Hnd. unfold AppleTV.services, dict_values.
    rewrite length_fmap. exact Hnd.
  - apply length_omap_le.
Qed.

Lemma services_distinct_at_most_three_witness :
  NoDup (AppleTV.services conf_all)
  ∧ (length (AppleTV.services conf_all) ≤ 3)%nat
  ∧ (length (AppleTV.all_identifiers store_scan conf_all)
     ≤ length (AppleTV.services conf_all))%nat.
Proof.
  apply (services_distinct_at_most_three store_scan conf_all).
  apply (bool_decide_unpack _). vm_compute. exact I.
Defined.

(** [ready], [identifier] and [main_service] read the table through its
    lookups only. *)
Lemma lookup_observers (h : Heap) (c c' : AppleTV.t) :
  (∀ q, AppleTV.get_service c q = AppleTV.get_service c' q) →
  AppleTV.ready c = AppleTV.ready c'
  ∧ AppleTV.identifier h c = AppleTV.identifier h c'
  ∧ ∀ p, AppleTV.main_service c p = AppleTV.main_service c' p.
Proof.
  unfold AppleTV.get_service. intros Hget.
  assert (∀ q, dict_contains (AppleTV._services c) q
               = dict_contains (AppleTV._services c') q) as Hin.
  { intros q.
    destruct (dict_contains (AppleTV._services c') q) eqn:Hq.
    - apply dict_contains_is_Some. rewrite Hget.
      apply dict_contains_is_Some, Hq.
    - apply dict_contains_None. rewrite Hget.
      apply dict_contains_None, Hq. }
  split; [|split].
  - unfold AppleTV.ready. rewrite !Hin. reflexivity.
  - unfold AppleTV.identifier. simpl. rewrite !Hget. reflexivity.
  - intros [p|]; unfold AppleTV.main_service; simpl; rewrite !Hget;
      reflexivity.
Qed.

Lemma lookup_contains (c c' : AppleTV.t) :
  (∀ q, AppleTV.get_service c q = AppleTV.get_service c' q) →
  ∀ q, dict_contains (AppleTV._services c) q
       = dict_contains (AppleTV._services c') q.
Proof.
  unfold AppleTV.get_service. intros Hget q.
  destruct (dict_contains (AppleTV._services c') q) eqn:Hq.
  - apply dict_contains_is_Some. rewrite Hget.
    apply dict_contains_is_Some, Hq.
  - apply dict_contains_None. rewrite Hget.
    apply dict_contains_None, Hq.
Qed.

Lemma all_properties_snoc (h : Heap) (c c' : AppleTV.t) (r : loc) :
  AppleTV.services c' = AppleTV.services c ++ [r] →
  AppleTV._all_properties h c'
  = dict_update (AppleTV._all_properties h c) (BaseService.properties (h r)).
Proof.
  intros Hs. unfold AppleTV._all_properties. rewrite Hs, foldl_app.
  reflexivity.
Qed.

Lemma all_identifiers_snoc (h : Heap) (c c' : AppleTV.t) (r : loc) :
  AppleTV.services c' = AppleTV.services c ++ [r] →
  AppleTV.all_identifiers h c'
  = AppleTV.all_identifiers h c
    ++ match BaseService.identifier (h r) with
       | Some i => [i]
       | None => []
       end.
Proof.
  intros Hs. unfold AppleTV.all_identifiers. rewrite Hs, omap_app.
  reflexivity.
Qed.

(** Two records of different protocols, neither registered yet, can be
    registered in either order. The lookups, and with them [ready],
    [identifier], [main_service] and the operating system of
    [device_info], come out the same. What follows the order of
    registration is [services], [all_identifiers] and the combined
    properties: the record registered second comes last in both lists, and
    its properties are laid over those of the first. *)
Theorem add_service_order (h : Heap) (self : AppleTV.t) (r1 r2 : loc) :
  BaseService.protocol (h r1) ≠ BaseService.protocol (h r2) →
  AppleTV.get_service self (BaseService.protocol (h r1)) = None →
  AppleTV.get_service self (BaseService.protocol (h r2)) = None →
  ∃ c1 c12 c2 c21,
    AppleTV.add_service h self r1 = Return (h, c1)
    ∧ AppleTV.add_service h c1 r2 = Return (h, c12)
    ∧ AppleTV.add_service h self r2 = Return (h, c2)
    ∧ AppleTV.add_service h c2 r1 = Return (h, c21)
    ∧ (∀ q, AppleTV.get_service c12 q = AppleTV.get_service c21 q)
    ∧ AppleTV.ready c12 = AppleTV.ready c21
    ∧ AppleTV.identifier h c12 = AppleTV.identifier h c21
    ∧ (∀ p, AppleTV.main_service c12 p = AppleTV.main_service c21 p)
    ∧ (∀ lookup_model lookup_version str_upper,
         os_type (AppleTV.device_info lookup_model lookup_version str_upper
                    h c12)
         = os_type (AppleTV.device_info lookup_model lookup_version str_upper
                      h c21))
    ∧ AppleTV.services c12 = AppleTV.services self ++ [r1; r2]
    ∧ AppleTV.services c21 = AppleTV.services self ++ [r2; r1]
    ∧ AppleTV.all_identifiers h c12
      = AppleTV.all_identifiers h self
        ++ match BaseService.identifier (h r1) with
           | Some i => [i]
           | None => []
           end
        ++ match BaseService.identifier (h r2) with
           | Some i => [i]
           | None => []
           end
    ∧ AppleTV.all_identifiers h c21
      = AppleTV.all_identifiers h self
        ++ match BaseService.identifier (h r2) with
           | Some i => [i]
           | None => []
           end
        ++ match BaseService.identifier (h r1) with
           | Some i => [i]
           | None => []
           end
    ∧ AppleTV._all_properties h c12
      = dict_update
          (dict_update (AppleTV._all_properties h self)
                       (BaseService.properties (h r1)))
          (BaseService.properties (h r2))
    ∧ AppleTV._all_properties h c21
      = dict_update
          (dict_update (AppleTV._all_properties h self)
                       (BaseService.properties (h r2)))
          (BaseService.properties (h r1)).
Proof.
  intros Hne H1 H2.
  destruct (add_service_fresh h self r1 H1)
    as (c1 & Ha1 & _ & _ & Hs1 & Hg1 & Ho1).
  destruct (add_service_fresh h self r2 H2)
    as (c2 & Ha2 & _ & _ & Hs2 & Hg2 & Ho2).
  destruct (add_service_fresh h c1 r2)
    as (c12 & Ha12 & _ & _ & Hs12 & Hg12 & Ho12).
  { rewrite Ho1 by congruence. exact H2. }
  destruct (add_service_fresh h c2 r1)
    as (c21 & Ha21 & _ & _ & Hs21 & Hg21 & Ho21).
  { rewrite Ho2 by congruence. exact H1. }
  assert (∀ q, AppleTV.get_service c12 q = AppleTV.get_service c21 q) as Hsame.
  { intros q.
    destruct (decide (q = BaseService.protocol (h r2))) as [->|Hq2].
    - rewrite Hg12, Ho21, Hg2 by congruence. reflexivity.
    - rewrite Ho12 by exact Hq2.
      destruct (decide (q = BaseService.protocol (h r1))) as [->|Hq1].
      + rewrite Hg1, Hg21. reflexivity.
      + rewrite Ho1, Ho21, Ho2 by assumption. reflexivity. }
  destruct (lookup_observers h c12 c21 Hsame) as (Hready & Hid & Hmain).
  exists c1, c12, c2, c21.
  do 8 (split; [assumption|]).
  split.
  { intros lookup_model lookup_version str_upper.
    unfold AppleTV.device_info. simpl.
    rewrite !(lookup_contains c12 c21 Hsame). reflexivity. }
  split; [rewrite Hs12, Hs1, <- app_assoc; reflexivity|].
  split; [rewrite Hs21, Hs2, <- app_assoc; reflexivity|].
  split.
  { rewrite (all_identifiers_snoc h c1 c12 r2 Hs12),
      (all_identifiers_snoc h self c1 r1 Hs1), <- app_assoc. reflexivity. }
  split.
  { rewrite (all_identifiers_snoc h c2 c21 r1 Hs21),
      (all_identifiers_snoc h self c2 r2 Hs2), <- app_assoc. reflexivity. }
  split.
  - rewrite (all_properties_snoc h c1 c12 r2 Hs12),
      (all_properties_snoc h self c1 r1 Hs1). reflexivity.
  - rewrite (all_properties_snoc h c2 c21 r1 Hs21),
      (all_properties_snoc h self c2 r2 Hs2). reflexivity.
Qed.

Lemma add_service_order_witness :
  ∃ c12 c21,
    (∀ q, AppleTV.get_service c12 q = AppleTV.get_service c21 q)
    ∧ AppleTV.ready c12 = AppleTV.ready c21
    ∧ AppleTV.identifier store_scan c12 = AppleTV.identifier store_scan c21
    ∧ AppleTV.services c12 = [0; 1]
    ∧ AppleTV.services c21 = [1; 0]
    ∧ AppleTV.all_identifiers store_scan c12 = ["ABC"; "XYZ"]
    ∧ AppleTV.all_identifiers store_scan c21 = ["XYZ"; "ABC"].
Proof.
  destruct (add_service_order store_scan living_room 0 1)
    as (c1 & c12 & c2 & c21 & _ & _ & _ & _ & Hget & Hready & Hid & _ & _
        & Hs12 & Hs21 & Hi12 & Hi21 & _ & _).
  - discriminate.
  - reflexivity.
  - reflexivity.
  - exists c12, c21.
    split; [exact Hget|]. split; [exact Hready|]. split; [exact Hid|].
    split; [exact Hs12|]. split; [exact Hs21|].
    split; [exact Hi12 | exact Hi21].
Defined.

(** ** Readiness, the main service and the identifier *)

(** A configuration is ready exactly when [main_service] without argument
    returns, and not ready exactly when it raises NoServiceError; a service
    that [main_service] returns, with or without argument, is one of
    [services]. *)
Theorem ready_iff_main_service (self : AppleTV.t) :
  (AppleTV.ready self = true ↔ ∃ s, AppleTV.main_service self None = Return s)
  ∧ (AppleTV.ready self = false ↔
       AppleTV.main_service self None
       = Raise (NoServiceError "no service to connect to"))
  ∧ (∀ p s, AppleTV.main_service self p = Return s →
            s ∈ AppleTV.services self).
Proof.
  assert (∀ q s, dict_get (AppleTV._services self) q = Some s →
                 s ∈ AppleTV.services self) as Hmem.
  { intros q s Hq. apply dict_get_elem_of in Hq.
    unfold AppleTV.services, dict_values.
    apply list_elem_of_fmap. exists (q, s). auto. }
  assert (AppleTV.ready self = true
          ↔ is_Some (AppleTV.get_service self MRP)
            ∨ is_Some (AppleTV.get_service self DMAP)) as Hready.
  { unfold AppleTV.ready.
    rewrite orb_true_iff, !contains_registered, !registered_get_service.
    tauto. }
  assert (AppleTV.main_service self None
          = match AppleTV.get_service self MRP with
            | Some s => Return s
            | None =>
                match AppleTV.get_service self DMAP with
                | Some s => Return s
                | None => Raise (NoServiceError "no service to connect to")
                end
            end) as Hmain by reflexivity.
  split; [|split].
  - rewrite Hready, Hmain.
    destruct (AppleTV.get_service self MRP) as [m|];
      destruct (AppleTV.get_service self DMAP) as [d|].
    + split; eauto.
    + split; eauto.
    + split; eauto.
    + split.
      * intros [[? H]|[? H]]; discriminate H.
      * intros [? H]. discriminate H.
  - rewrite <- not_true_iff_false, Hready, Hmain.
    destruct (AppleTV.get_service self MRP) as [m|];
      destruct (AppleTV.get_service self DMAP) as [d|].
    + split; [intros H; exfalso; apply H; eauto | discriminate].
    + split; [intros H; exfalso; apply H; eauto | discriminate].
    + split; [intros H; exfalso; apply H; eauto | discriminate].
    + split; [reflexivity|]. intros _ [[? H]|[? H]]; discriminate H.
  - intros [p|] s.
    + unfold AppleTV.main_service. simpl.
      destruct (dict_get (AppleTV._services self) p) as [s'|] eqn:Hp;
        [|discriminate].
      intros [= <-]. exact (Hmem _ _ Hp).
    + rewrite Hmain. unfold AppleTV.get_service.
      destruct (dict_get (AppleTV._services self) MRP) as [m|] eqn:Hmrp.
      * intros [= <-]. exact (Hmem _ _ Hmrp).
      * destruct (dict_get (AppleTV._services self) DMAP) as [d|] eqn:Hdmap;
          [|discriminate].
        intros [= <-]. exact (Hmem _ _ Hdmap).
Qed.

Lemma ready_iff_main_service_witness :
  (∃ s, AppleTV.main_service conf_dmap None = Return s)
  ∧ 0 ∈ AppleTV.services conf_all.
Proof.
  split.
  - apply (proj1 (proj1 (ready_iff_main_service conf_dmap))). reflexivity.
  - apply (proj2 (proj2 (ready_iff_main_service conf_all)) None 0).
    reflexivity.
Defined.

(** The identifier of a ready configuration is the identifier of the
    service [main_service] selects: both follow the order MRP, DMAP. *)
Theorem identifier_of_main_service (h : Heap) (self : AppleTV.t) (s : loc) :
  AppleTV.main_service self None = Return s →
  AppleTV.identifier h self = BaseService.identifier (h s).
Proof.
  unfold AppleTV.main_service, AppleTV.identifier. simpl.
  destruct (dict_get (AppleTV._services self) MRP) as [m|].
  - intros [= <-]. reflexivity.
  - destruct (dict_get (AppleTV._services self) DMAP) as [d|]; [|discriminate].
    intros [= <-]. reflexivity.
Qed.

Lemma identifier_of_main_service_witness :
  AppleTV.identifier store_scan conf_dmap
  = BaseService.identifier (store_scan 1).
Proof.
  apply (identifier_of_main_service store_scan conf_dmap 1). reflexivity.
Defined.

(** ** All identifiers *)

Lemma get_service_services (self : AppleTV.t) (p : Protocol) (s : loc) :
  AppleTV.get_service self p = Some s → s ∈ AppleTV.services self.
Proof.
  unfold AppleTV.get_service. intros Hget. apply dict_get_elem_of in Hget.
  unfold AppleTV.services, dict_values.
  apply list_elem_of_fmap. exists (p, s). auto.
Qed.

(** An identifier that [identifier] resolves to is one of
    [all_identifiers]. *)
Theorem identifier_in_all_identifiers (h : Heap) (self : AppleTV.t)
    (i : string) :
  AppleTV.identifier h self = Some i → i ∈ AppleTV.all_identifiers h self.
Proof.
  unfold AppleTV.identifier, AppleTV.all_identifiers. simpl.
  intros Hid. apply list_elem_of_omap.
  destruct (dict_get (AppleTV._services self) MRP) as [m|] eqn:Hmrp;
    [exists m; split; [exact (get_service_services _ _ _ Hmrp) | exact Hid]|].
  destruct (dict_get (AppleTV._services self) DMAP) as [d|] eqn:Hdmap;
    [exists d; split; [exact (get_service_services _ _ _ Hdmap) | exact Hid]|].
  destruct (dict_get (AppleTV._services self) AirPlay) as [a|] eqn:Hair;
    [exists a; split; [exact (get_service_services _ _ _ Hair) | exact Hid]|].
  discriminate Hid.
Qed.

Lemma identifier_in_all_identifiers_witness :
  "ABC" ∈ AppleTV.all_identifiers store_scan conf_all.
Proof.
  apply (identifier_in_all_identifiers store_scan conf_all "ABC").
  reflexivity.
Defined.

(** Under the invariant [all_identifiers] holds exactly the identifiers of
    the records [get_service] can return, null identifiers left out. *)
Theorem all_identifiers_registered (h : Heap) (self : AppleTV.t) (i : string) :
  class_inv h self →
  (i ∈ AppleTV.all_identifiers h self
   ↔ ∃ p s, AppleTV.get_service self p = Some s
            ∧ BaseService.identifier (h s) = Some i).
Proof.
  intros [Hnd _]. unfold AppleTV.all_identifiers.
  rewrite list_elem_of_omap. split.
  - intros (s & Hs & Hid). unfold AppleTV.services, dict_values in Hs.
    apply list_elem_of_fmap in Hs as ([p s'] & -> & Hin).
    exists p, s'. split; [|exact Hid].
    apply elem_of_dict_get; assumption.
  - intros (p & s & Hget & Hid). exists s.
    split; [exact (get_service_services _ _ _ Hget) | exact Hid].
Qed.

Lemma all_identifiers_registered_witness :
  "XYZ" ∈ AppleTV.all_identifiers store_scan conf_all
  ↔ ∃ p s, AppleTV.get_service conf_all p = Some s
           ∧ BaseService.identifier (store_scan s) = Some "XYZ".
Proof.
  apply (all_identifiers_registered store_scan conf_all "XYZ").
  apply (bool_decide_unpack _). vm_compute. exact I.
Defined.

(** The identifiers are listed in the order of registration and are not
    made unique: a first registration of a protocol appends the identifier
    of the record, or nothing when it has none, also when the identifier is
    listed already. *)
Theorem all_identifiers_add_service (h : Heap) (self : AppleTV.t)
    (service : loc) :
  AppleTV.get_service self (BaseService.protocol (h service)) = None →
  ∃ self',
    AppleTV.add_service h self service = Return (h, self')
    ∧ AppleTV.all_identifiers h self'
      = AppleTV.all_identifiers h self
        ++ match BaseService.identifier (h service) with
           | Some i => [i]
           | None => []
           end.
Proof.
  intros Hnone.
  destruct (add_service_fresh h self service Hnone)
    as (self' & Hadd & _ & _ & Hs & _).
  exists self'. split; [exact Hadd|].
  unfold AppleTV.all_identifiers. rewrite Hs, omap_app. reflexivity.
Qed.

Lemma all_identifiers_add_service_witness :
  ∃ self',
    AppleTV.add_service store_scan conf_airplay 0 = Return (store_scan, self')
    ∧ AppleTV.all_identifiers store_scan self'
      = AppleTV.all_identifiers store_scan conf_airplay
        ++ match BaseService.identifier (store_scan 0) with
           | Some i => [i]
           | None => []
           end.
Proof.
  apply (all_identifiers_add_service store_scan conf_airplay 0). reflexivity.
Defined.

(** ** Equality *)

(** On configurations that share a store [__eq__] is reflexive, symmetric
    and transitive. *)
Theorem eq_equivalence (h : Heap) :
  (∀ c, AppleTV.__eq__ h c (AppleTV.ObjAppleTV c) = true)
  ∧ (∀ c1 c2, AppleTV.__eq__ h c1 (AppleTV.ObjAppleTV c2)
              = AppleTV.__eq__ h c2 (AppleTV.ObjAppleTV c1))
  ∧ (∀ c1 c2 c3,
       AppleTV.__eq__ h c1 (AppleTV.ObjAppleTV c2) = true →
       AppleTV.__eq__ h c2 (AppleTV.ObjAppleTV c3) = true →
       AppleTV.__eq__ h c1 (AppleTV.ObjAppleTV c3) = true).
Proof.
  unfold AppleTV.__eq__. split; [|split].
  - intros c. apply bool_decide_eq_true. reflexivity.
  - intros c1 c2. apply bool_decide_ext. split; intros ->; reflexivity.
  - intros c1 c2 c3 H12 H23.
    apply bool_decide_eq_true in H12, H23. apply bool_decide_eq_true.
    congruence.
Qed.

Lemma eq_equivalence_witness :
  AppleTV.__eq__ store_scan conf_all (AppleTV.ObjAppleTV living_room) = false
  ∧ AppleTV.__eq__ store_scan conf_all (AppleTV.ObjAppleTV conf_all) = true.
Proof.
  split; [reflexivity|].
  apply (proj2 (proj2 (eq_equivalence store_scan)) conf_all conf_mrp conf_all);
    reflexivity.
Defined.

(** ** The combined properties *)

Lemma fold_update_lookup_None (h : Heap) (k : string) (l : list loc)
    (acc : gmap string string) :
  (∀ s, s ∈ l → BaseService.properties (h s) !! k = None) →
  foldl (λ properties service,
           dict_update properties (BaseService.properties (h service)))
        acc l !! k
  = acc !! k.
Proof.
  revert acc. induction l as [|s l IH]; intros acc Hnone; [reflexivity|].
  simpl. rewrite IH.
  - rewrite dict_update_lookup, (Hnone s); [reflexivity|].
    apply list_elem_of_here.
  - intros s' Hs'. apply Hnone, list_elem_of_further, Hs'.
Qed.

Lemma fold_update_lookup_Some (h : Heap) (k v : string) (l : list loc)
    (acc : gmap string string) :
  foldl (λ properties service,
           dict_update properties (BaseService.properties (h service)))
        acc l !! k
  = Some v →
  acc !! k = Some v
  ∨ ∃ s, s ∈ l ∧ BaseService.properties (h s) !! k = Some v.
Proof.
  revert acc. induction l as [|s l IH]; intros acc; simpl; [auto|].
  intros Hfold. apply IH in Hfold as [Hacc|(s' & Hin & Hs')].
  - rewrite dict_update_lookup in Hacc.
    destruct (BaseService.properties (h s) !! k) as [w|] eqn:Hs.
    + right. exists s. split; [apply list_elem_of_here | congruence].
    + left. exact Hacc.
  - right. exists s'. split; [apply list_elem_of_further, Hin | exact Hs'].
Qed.

(** The last registered service that has a key decides its value in the
    combined properties. *)
Theorem all_properties_last_wins (h : Heap) (self : AppleTV.t)
    (before after : list loc) (s : loc) (k v : string) :
  AppleTV.services self = before ++ s :: after →
  BaseService.properties (h s) !! k = Some v →
  (∀ s', s' ∈ after → BaseService.properties (h s') !! k = None) →
  AppleTV._all_properties h self !! k = Some v.
Proof.
  intros Hservices Hs Hafter. unfold AppleTV._all_properties.
  rewrite Hservices, foldl_app. simpl.
  rewrite fold_update_lookup_None by exact Hafter.
  rewrite dict_update_lookup, Hs. reflexivity.
Qed.

Lemma all_properties_last_wins_witness :
  AppleTV._all_properties store_scan
    (AppleTV.mk 3232235786%N "Living Room" [(MRP, 0); (AirPlay, 3); (DMAP, 1)])
  !! "SystemBuildVersion" = Some "18K561".
Proof.
  apply (all_properties_last_wins store_scan _ [0] [1] 3
           "SystemBuildVersion" "18K561").
  - reflexivity.
  - vm_compute. reflexivity.
  - intros s' Hs'. apply list_elem_of_singleton in Hs'. subst s'.
    vm_compute. reflexivity.
Defined.

Lemma fold_update_lookup_None_iff (h : Heap) (k : string) (l : list loc)
    (acc : gmap string string) :
  foldl (λ properties service,
           dict_update properties (BaseService.properties (h service)))
        acc l !! k
  = None
  ↔ acc !! k = None
    ∧ ∀ s, s ∈ l → BaseService.properties (h s) !! k = None.
Proof.
  revert acc. induction l as [|s l IH]; intros acc; simpl.
  - split; [|intros [Hacc _]; exact Hacc].
    intros Hacc. split; [exact Hacc|].
    intros s Hs. apply elem_of_nil in Hs. contradiction.
  - rewrite IH, dict_update_lookup. split.
    + intros [Hupd Hrest].
      destruct (BaseService.properties (h s) !! k) as [w|] eqn:Hs;
        [discriminate|].
      split; [exact Hupd|].
      intros s' Hs'. apply elem_of_cons in Hs' as [->|Hs']; auto.
    + intros [Hacc Hall]. split.
      * rewrite (Hall s) by apply list_elem_of_here. exact Hacc.
      * intros s' Hs'. apply Hall, list_elem_of_further, Hs'.
Qed.

(** A key is absent from the combined properties exactly when no
    registered service has it, and a value found there is the value some
    registered service has for the key. *)
Theorem all_properties_from_services (h : Heap) (self : AppleTV.t)
    (k : string) :
  (AppleTV._all_properties h self !! k = None
   ↔ ∀ s, s ∈ AppleTV.services self →
          BaseService.properties (h s) !! k = None)
  ∧ (∀ v, AppleTV._all_properties h self !! k = Some v →
          ∃ s, s ∈ AppleTV.services self
               ∧ BaseService.properties (h s) !! k = Some v).
Proof.
  unfold AppleTV._all_properties. split.
  - rewrite fold_update_lookup_None_iff, lookup_empty. tauto.
  - intros v Hv. apply fold_update_lookup_Some in Hv as [Hempty|Hs].
    + rewrite lookup_empty in Hempty. discriminate Hempty.
    + exact Hs.
Qed.

Lemma all_properties_from_services_witness :
  ∃ s, s ∈ AppleTV.services conf_all
       ∧ BaseService.properties (store_scan s) !! "macAddress"
         = Some "aa:bb:cc".
Proof.
  apply (proj2 (all_properties_from_services store_scan conf_all "macAddress")
           "aa:bb:cc").
  vm_compute. reflexivity.
Defined.

(** ** What the device information depends on *)

Lemma dict_contains_keys (d d' : list (Protocol * loc)) (k : Protocol) :
  d.*1 = d'.*1 → dict_contains d k = dict_contains d' k.
Proof.
  revert d'. induction d as [|[p s] d IH]; intros [|[p' s'] d'] Hkeys;
    try discriminate Hkeys; [reflexivity|].
  injection Hkeys as -> Hkeys. simpl.
  rewrite (IH d' Hkeys). reflexivity.
Qed.

Lemma fold_update_ext (h h' : Heap) (l l' : list loc)
    (acc : gmap string string) :
  Forall2 (λ s s', BaseService.properties (h s) = BaseService.properties (h' s'))
          l l' →
  foldl (λ properties service,
           dict_update properties (BaseService.properties (h service)))
        acc l
  = foldl (λ properties service,
             dict_update properties (BaseService.properties (h' service)))
          acc l'.
Proof.
  intros Hall. revert acc.
  induction Hall as [|s s' l l' Hs Hall IH]; intros acc; [reflexivity|].
  simpl. rewrite Hs. apply IH.
Qed.

(** [device_info] is decided by the protocols registered, in their order,
    and by the properties of the registered records: it reads no address,
    name, identifier, port or credentials. *)
Theorem device_info_same_properties
    (lookup_model lookup_version : option string → option string)
    (str_upper : string → string)
    (h h' : Heap) (self self' : AppleTV.t) :
  (AppleTV._services self).*1 = (AppleTV._services self').*1 →
  Forall2 (λ s s', BaseService.properties (h s) = BaseService.properties (h' s'))
          (AppleTV.services self) (AppleTV.services self') →
  AppleTV.device_info lookup_model lookup_version str_upper h self
  = AppleTV.device_info lookup_model lookup_version str_upper h' self'.
Proof.
  intros Hkeys Hprops. unfold AppleTV.device_info, AppleTV._all_properties.
  rewrite (fold_update_ext h h' _ _ ∅ Hprops).
  rewrite !(dict_contains_keys _ _ _ Hkeys). reflexivity.
Qed.

Lemma device_info_same_properties_witness :
  AppleTV.device_info table_model table_version upper store_scan conf_mrp
  = AppleTV.device_info table_model table_version upper
      (λ l, MrpService None 7 (Some "secret")
              (Some {[ "SystemBuildVersion" := "18J386" ]}))
      (AppleTV.mk 167772161%N "Bedroom" [(MRP, 9)]).
Proof.
  apply (device_info_same_properties table_model table_version upper).
  - reflexivity.
  - repeat constructor.
Defined.

(** ** Credentials and the other operations *)

Lemma identifier_store_ext (h h' : Heap) (self : AppleTV.t) :
  (∀ l, BaseService.identifier (h' l) = BaseService.identifier (h l)) →
  AppleTV.identifier h' self = AppleTV.identifier h self
  ∧ AppleTV.all_identifiers h' self = AppleTV.all_identifiers h self.
Proof.
  intros Hid. split.
  - unfold AppleTV.identifier. simpl.
    destruct (dict_get (AppleTV._services self) MRP); [apply Hid|].
    destruct (dict_get (AppleTV._services self) DMAP); [apply Hid|].
    destruct (dict_get (AppleTV._services self) AirPlay); [apply Hid|].
    reflexivity.
  - unfold AppleTV.all_identifiers.
    induction (AppleTV.services self) as [|s l IH]; [reflexivity|].
    change (match BaseService.identifier (h' s) with
            | Some i => i :: omap (λ x, BaseService.identifier (h' x)) l
            | None => omap (λ x, BaseService.identifier (h' x)) l
            end
            = match BaseService.identifier (h s) with
              | Some i => i :: omap (λ x, BaseService.identifier (h x)) l
              | None => omap (λ x, BaseService.identifier (h x)) l
              end).
    rewrite IH, Hid. reflexivity.
Qed.

Lemma set_credentials_store (h : Heap) (self : AppleTV.t) (p : Protocol)
    (c : option string) (l : loc) :
  (AppleTV.set_credentials h self p c).2.2 = self
  ∧ BaseService.identifier ((AppleTV.set_credentials h self p c).2.1 l)
    = BaseService.identifier (h l)
  ∧ BaseService.properties ((AppleTV.set_credentials h self p c).2.1 l)
    = BaseService.properties (h l).
Proof.
  unfold AppleTV.set_credentials.
  destruct (AppleTV.get_service self p) as [s|]; simpl; [|auto].
  split; [reflexivity|].
  destruct (decide (s = l)) as [->|Hne].
  - rewrite fn_lookup_insert. auto.
  - rewrite fn_lookup_insert_ne by exact Hne. auto.
Qed.

(** No result of the other operations depends on credentials: after
    [set_credentials], for any protocol and whether or not it is
    registered, the configuration is the same and, for every configuration
    over the store, the identifier, the list of identifiers, the device
    information and the outcome of a comparison are as before. *)
Theorem set_credentials_observers
    (lookup_model lookup_version : option string → option string)
    (str_upper : string → string)
    (h : Heap) (self : AppleTV.t) (p : Protocol) (c : option string) :
  (AppleTV.set_credentials h self p c).2.2 = self
  ∧ (∀ other,
       AppleTV.identifier (AppleTV.set_credentials h self p c).2.1 other
       = AppleTV.identifier h other)
  ∧ (∀ other,
       AppleTV.all_identifiers (AppleTV.set_credentials h self p c).2.1 other
       = AppleTV.all_identifiers h other)
  ∧ (∀ other,
       AppleTV.device_info lookup_model lookup_version str_upper
         (AppleTV.set_credentials h self p c).2.1 other
       = AppleTV.device_info lookup_model lookup_version str_upper h other)
  ∧ (∀ c1 o,
       AppleTV.__eq__ (AppleTV.set_credentials h self p c).2.1 c1 o
       = AppleTV.__eq__ h c1 o).
Proof.
  pose proof (set_credentials_store h self p c) as Hstore.
  set (h' := (AppleTV.set_credentials h self p c).2.1) in *.
  assert (∀ other, AppleTV.identifier h' other = AppleTV.identifier h other)
    as Hid.
  { intros other. apply identifier_store_ext. intros l. apply (Hstore l). }
  split; [apply (Hstore 0)|]. split; [exact Hid|]. split; [|split].
  - intros other. apply identifier_store_ext. intros l. apply (Hstore l).
  - intros other. unfold AppleTV.device_info, AppleTV._all_properties.
    rewrite (fold_update_ext h' h (AppleTV.services other)
               (AppleTV.services other) ∅); [reflexivity|].
    apply Forall2_same_length_lookup. split; [reflexivity|].
    intros i x y Hx Hy. rewrite Hx in Hy. injection Hy as <-.
    apply (Hstore x).
  - intros c1 [c2|]; [|reflexivity].
    unfold AppleTV.__eq__. rewrite !Hid. reflexivity.
Qed.

(** A second [set_credentials] for a protocol overwrites the first: the
    store is, record by record, what the second call alone gives, and both
    report the same. *)
Theorem set_credentials_overwrites (h : Heap) (self : AppleTV.t)
    (p : Protocol) (c1 c2 : option string) :
  (AppleTV.set_credentials
     (AppleTV.set_credentials h self p c1).2.1 self p c2).1
  = (AppleTV.set_credentials h self p c2).1
  ∧ ∀ l,
      (AppleTV.set_credentials
         (AppleTV.set_credentials h self p c1).2.1 self p c2).2.1 l
      = (AppleTV.set_credentials h self p c2).2.1 l.
Proof.
  unfold AppleTV.set_credentials.
  destruct (AppleTV.get_service self p) as [s|]; simpl; [|auto].
  split; [reflexivity|]. intros l.
  destruct (decide (s = l)) as [->|Hne].
  - rewrite !fn_lookup_insert. reflexivity.
  - rewrite !fn_lookup_insert_ne by exact Hne. reflexivity.
Qed.

(** Under the invariant the credentials of two different protocols can be
    set in either order. *)
Theorem set_credentials_commute (h : Heap) (self : AppleTV.t)
    (p q : Protocol) (c1 c2 : option string) :
  class_inv h self →
  p ≠ q →
  ∀ l,
    (AppleTV.set_credentials
       (AppleTV.set_credentials h self p c1).2.1 self q c2).2.1 l
    = (AppleTV.set_credentials
         (AppleTV.set_credentials h self q c2).2.1 self p c1).2.1 l.
Proof.
  intros Hinv Hpq l. unfold AppleTV.set_credentials.
  destruct (AppleTV.get_service self p) as [s|] eqn:Hp;
    destruct (AppleTV.get_service self q) as [t|] eqn:Hq; simpl;
    try reflexivity.
  pose proof (class_inv_distinct h self p q s t Hinv Hp Hq Hpq) as Hst.
  unfold insert, fn_insert.
  destruct (decide (s = l)) as [Hsl|Hsl]; destruct (decide (t = l)) as [Htl|Htl];
    try congruence.
  - rewrite decide_False by congruence. reflexivity.
  - rewrite decide_False by congruence. reflexivity.
Qed.

Lemma set_credentials_commute_witness :
  (AppleTV.set_credentials
     (AppleTV.set_credentials store_scan conf_all MRP (Some "a")).2.1
     conf_all DMAP (Some "b")).2.1 0
  = (AppleTV.set_credentials
       (AppleTV.set_credentials store_scan conf_all DMAP (Some "b")).2.1
       conf_all MRP (Some "a")).2.1 0
  ∧ (AppleTV.set_credentials
       (AppleTV.set_credentials store_scan conf_all MRP (Some "a")).2.1
       conf_all DMAP (Some "b")).2.1 1
    = (AppleTV.set_credentials
         (AppleTV.set_credentials store_scan conf_all DMAP (Some "b")).2.1
         conf_all MRP (Some "a")).2.1 1.
Proof.
  split.
  - apply (set_credentials_commute store_scan conf_all MRP DMAP
             (Some "a") (Some "b")).
    + apply (bool_decide_unpack _). vm_compute. exact I.
    + discriminate.
  - apply (set_credentials_commute store_scan conf_all MRP DMAP
             (Some "a") (Some "b")).
    + apply (bool_decide_unpack _). vm_compute. exact I.
    + discriminate.
Defined.

(** ** New configurations and first registrations *)

(** A new configuration keeps its address and name and has no service:
    every lookup is absent, there is no identifier, [main_service] raises
    NoServiceError with and without a protocol, [set_credentials] reports
    false and changes nothing, and the combined properties are empty. *)
Theorem new_configuration (h : Heap) (address : IPv4Address) (name : string) :
  AppleTV.address (AppleTV.__init__ address name) = address
  ∧ AppleTV.name (AppleTV.__init__ address name) = name
  ∧ AppleTV.services (AppleTV.__init__ address name) = []
  ∧ (∀ p, AppleTV.get_service (AppleTV.__init__ address name) p = None)
  ∧ AppleTV.identifier h (AppleTV.__init__ address name) = None
  ∧ AppleTV.all_identifiers h (AppleTV.__init__ address name) = []
  ∧ (∀ p, AppleTV.main_service (AppleTV.__init__ address name) p
          = Raise (NoServiceError "no service to connect to"))
  ∧ (∀ p c, AppleTV.set_credentials h (AppleTV.__init__ address name) p c
            = (false, (h, AppleTV.__init__ address name)))
  ∧ AppleTV._all_properties h (AppleTV.__init__ address name) = ∅.
Proof.
  repeat split. intros [p|]; reflexivity.
Qed.

(** The first record registered on a new configuration is its only
    service and gives it its identifier and its properties; the
    configuration is ready, and [main_service] returns the record, unless
    the record is an AirPlay one, in which case [main_service] returns it
    only when AirPlay is asked for. *)
Theorem first_registration (h : Heap) (address : IPv4Address) (name : string)
    (service : loc) :
  ∃ self,
    AppleTV.add_service h (AppleTV.__init__ address name) service
    = Return (h, self)
    ∧ AppleTV.services self = [service]
    ∧ AppleTV.identifier h self = BaseService.identifier (h service)
    ∧ AppleTV._all_properties h self = BaseService.properties (h service)
    ∧ AppleTV.main_service self (Some (BaseService.protocol (h service)))
      = Return service
    ∧ (BaseService.protocol (h service) ≠ AirPlay →
       AppleTV.ready self = true
       ∧ AppleTV.main_service self None = Return service)
    ∧ (BaseService.protocol (h service) = AirPlay →
       AppleTV.ready self = false
       ∧ AppleTV.main_service self None
         = Raise (NoServiceError "no service to connect to")).
Proof.
  eexists. split; [reflexivity|].
  unfold AppleTV.identifier, AppleTV._all_properties, AppleTV.main_service,
    AppleTV.ready, AppleTV.services, dict_values, dict_update.
  simpl. rewrite (right_id_L ∅ (∪)).
  destruct (BaseService.protocol (h service)); simpl;
    repeat split; congruence.
Qed.

Lemma first_registration_witness :
  AppleTV.ready (AppleTV.mk 3232235786%N "Living Room" [(DMAP, 1)]) = true
  ∧ AppleTV.main_service (AppleTV.mk 3232235786%N "Living Room" [(DMAP, 1)])
      None
    = Return 1.
Proof.
  destruct (first_registration store_scan 3232235786%N "Living Room" 1)
    as (self & Hadd & _ & _ & _ & _ & Hready & _).
  injection Hadd as <-. apply Hready. discriminate.
Defined.

(** ** The service classes *)



(** ** Build, model and version *)

(** The build is the combined property [SystemBuildVersion] and the model
    is what [lookup_model] makes of the combined property [model], asked
    also when there is none. When a registered service has the property
    [osvers], the version is the combined [osvers] and [lookup_version]
    has no say; when none has it, the version is [lookup_version] of the
    build. *)
Theorem device_info_build_model_version
    (lookup_model lookup_version : option string → option string)
    (str_upper : string → string)
    (h : Heap) (self : AppleTV.t) :
  build (AppleTV.device_info lookup_model lookup_version str_upper h self)
  = AppleTV._all_properties h self !! "SystemBuildVersion"
  ∧ model (AppleTV.device_info lookup_model lookup_version str_upper h self)
    = lookup_model (AppleTV._all_properties h self !! "model")
  ∧ (∀ s, s ∈ AppleTV.services self →
          is_Some (BaseService.properties (h s) !! "osvers") →
          is_Some (version
                     (AppleTV.device_info lookup_model lookup_version str_upper h self))
          ∧ version (AppleTV.device_info lookup_model lookup_version str_upper h self)
            = AppleTV._all_properties h self !! "osvers")
  ∧ ((∀ s, s ∈ AppleTV.services self →
           BaseService.properties (h s) !! "osvers" = None) →
     version (AppleTV.device_info lookup_model lookup_version str_upper h self)
     = lookup_version (AppleTV._all_properties h self !! "SystemBuildVersion")).
Proof.
  split; [reflexivity|]. split; [reflexivity|].
  unfold AppleTV.device_info. simpl. split.
  - intros s Hs [v Hv].
    destruct (AppleTV._all_properties h self !! "osvers") as [w|] eqn:Hall.
    + split; [eexists|]; reflexivity.
    + unfold AppleTV._all_properties in Hall.
      apply fold_update_lookup_None_iff in Hall as [_ Hall].
      rewrite (Hall s Hs) in Hv. discriminate Hv.
  - intros Hnone.
    assert (AppleTV._all_properties h self !! "osvers" = None) as ->.
    { unfold AppleTV._all_properties.
      apply fold_update_lookup_None_iff. rewrite lookup_empty. auto. }
    reflexivity.
Qed.

Lemma device_info_build_model_version_witness :
  version (AppleTV.device_info table_model table_version upper store_scan conf_mrp)
  = table_version
      (AppleTV._all_properties store_scan conf_mrp !! "SystemBuildVersion")
  ∧ version
      (AppleTV.device_info table_model table_version upper store_scan
         (AppleTV.mk 3232235786%N "Living Room" [(MRP, 4)]))
    = AppleTV._all_properties store_scan
        (AppleTV.mk 3232235786%N "Living Room" [(MRP, 4)]) !! "osvers".
Proof.
  split.
  - apply (proj2 (proj2 (proj2
             (device_info_build_model_version table_model table_version upper
                store_scan conf_mrp)))).
    intros s Hs. apply list_elem_of_singleton in Hs. subst s.
    vm_compute. reflexivity.
  - apply (proj1 (proj2 (proj2
             (device_info_build_model_version table_model table_version upper
                store_scan
                (AppleTV.mk 3232235786%N "Living Room" [(MRP, 4)])))) 4).
    + apply list_elem_of_here.
    + exists "14.7". vm_compute. reflexivity.
Defined.
